(** * fileuploader: an Express service uploading images to an S3 bucket

    Shallow embedding of [src/index.ts] and verification of its upload
    filter, key generation, route handlers and port selection.

    Conventions of the embedding.
    - A JavaScript string is a [string]: a sequence of code units, here
      restricted to U+0000..U+00FF (one [ascii] per code unit).
    - A JavaScript number is an IEEE-754 binary64 value, a [spec_float] of
      the Standard Library with precision 53 and maximal exponent 1024.
    - Effects (the bucket, the S3 command log, the console, the random
      source) are threaded through a state monad over [World]; the Express
      response object is a value of type [Res] passed along by the
      handlers.
    - The third-party libraries (Node's [path], busboy and multer,
      multer-s3, the AWS SDK client and its lib-storage) are not part of
      the repository; each is modelled in its own module, from the source
      of the library, with the part the repository configures taken as an
      argument. *)

From Stdlib Require Import ZArith List Bool Ascii String Lia.
From Stdlib Require Import Floats.SpecFloat.
From stdpp Require Import gmap strings.

Local Open Scope Z_scope.

(** ** JavaScript values and string primitives *)

Module JS.

(** binary64 *)
Definition prec : Z := 53.
Definition emax : Z := 1024.

(** The double nearest to the integer [n] (ties to even). *)
Definition of_Z (n : Z) : spec_float := binary_normalize prec emax n 0 false.

#[warnings="-register-all"] Inductive Value : Type :=
| Undefined
| Null
| Bool (b : bool)
| Num (x : spec_float)
| Str (s : string)
| Obj (fields : list (string * Value)).

(** ToBoolean *)
Definition truthy (v : Value) : bool :=
  match v with
  | Undefined | Null => false
  | Bool b => b
  | Num (S754_zero _) | Num S754_nan => false
  | Num _ => true
  | Str s => negb (String.eqb s "")
  | Obj _ => true
  end.

(** [a || b] *)
Definition or (a b : Value) : Value := if truthy a then a else b.

(** Reading [process.env.NAME] or destructuring a property: a missing
    entry reads as [undefined]. *)
Definition of_option (o : option string) : Value :=
  match o with Some s => Str s | None => Undefined end.

(** Property read [o.k] on an object value (first binding wins, as the
    parser keeps one binding per name); [undefined] when absent. *)
Fixpoint assoc (k : string) (fields : list (string * Value)) : Value :=
  match fields with
  | [] => Undefined
  | (k', v) :: rest => if String.eqb k k' then v else assoc k rest
  end.

(** [String(v)] and template-literal interpolation, for the values the
    program interpolates: environment entries (strings or undefined). *)
Definition String_ (o : option string) : string :=
  match o with Some s => s | None => "undefined" end.

(** [s.toLowerCase()] on code units below U+0100: A-Z, and the Latin-1
    capitals U+00C0..U+00DE except the multiplication sign U+00D7, move
    up by 32. *)
Definition lower_unit (c : ascii) : ascii :=
  let n := nat_of_ascii c in
  if ((65 <=? n)%nat && (n <=? 90)%nat)
     || ((192 <=? n)%nat && (n <=? 222)%nat && negb (n =? 215)%nat)
  then ascii_of_nat (n + 32) else c.

Fixpoint toLowerCase (s : string) : string :=
  match s with
  | EmptyString => EmptyString
  | String c s' => String (lower_unit c) (toLowerCase s')
  end.

(** [s.substring(a, b)] for non-negative integers: the code units at
    positions [min a b] to [max a b] (excluded), clipped to the string. *)
Definition substring (s : string) (a b : nat) : string :=
  String.substring (Nat.min a b) (Nat.max a b - Nat.min a b) s.

(** [s.slice(a, b)] for non-negative integers: empty when [b <= a]. *)
Definition slice (s : string) (a b : nat) : string :=
  String.substring a (b - a) s.

(** A regular expression that is an alternation of literals, such as
    [/jpeg|jpg|png|gif/], is the list of its alternatives. Without
    anchors and without the [g] flag, [re.test(s)] holds when some
    alternative occurs at some position of [s]. *)
Definition RegExp : Type := list string.

Definition match_here (re : RegExp) (s : string) : bool :=
  existsb (fun lit => String.prefix lit s) re.

Fixpoint test (re : RegExp) (s : string) : bool :=
  match_here re s
  || match s with
     | EmptyString => false
     | String _ s' => test re s'
     end.

(** *** [Number(v)]: StringToNumber

    The StringNumericLiteral grammar: optional white space around an
    optionally signed decimal literal (digits, fraction, exponent),
    [Infinity], or an unsigned [0b]/[0o]/[0x] integer literal. The empty
    string converts to [+0], everything else to [NaN]. The mathematical
    value is rounded to the nearest double, ties to even. *)

Definition is_white_space (c : ascii) : bool :=
  let n := nat_of_ascii c in
  ((9 <=? n)%nat && (n <=? 13)%nat) || (n =? 32)%nat || (n =? 160)%nat.

Fixpoint trim_start (s : string) : string :=
  match s with
  | String c s' => if is_white_space c then trim_start s' else s
  | EmptyString => EmptyString
  end.

Fixpoint trim_end (s : string) : string :=
  match s with
  | EmptyString => EmptyString
  | String c s' =>
    let t := trim_end s' in
    if is_white_space c && String.eqb t "" then EmptyString else String c t
  end.

Definition digit_of (radix : Z) (c : ascii) : option Z :=
  let n := Z.of_nat (nat_of_ascii c) in
  let d :=
    if (48 <=? n) && (n <=? 57) then n - 48
    else if (97 <=? n) && (n <=? 122) then n - 87
    else if (65 <=? n) && (n <=? 90) then n - 55
    else radix in
  if d <? radix then Some d else None.

(** Value of a string made of digits only; [None] on any other
    character. *)
Fixpoint digits_value (radix : Z) (s : string) (acc : Z) : option Z :=
  match s with
  | EmptyString => Some acc
  | String c s' =>
    match digit_of radix c with
    | Some d => digits_value radix s' (acc * radix + d)
    | None => None
    end
  end.

(** Longest prefix of decimal digits, and the rest. *)
Fixpoint span_digits (s : string) : string * string :=
  match s with
  | String c s' =>
    match digit_of 10 c with
    | Some _ => let '(d, r) := span_digits s' in (String c d, r)
    | None => (EmptyString, s)
    end
  | EmptyString => (EmptyString, EmptyString)
  end.

(** ExponentPart, possibly absent: the decimal exponent. *)
Definition exponent_part (s : string) : option Z :=
  match s with
  | EmptyString => Some 0
  | String c r =>
    if Ascii.eqb c "e" || Ascii.eqb c "E" then
      let '(neg, ds) :=
        match r with
        | String "+" r' => (false, r')
        | String "-" r' => (true, r')
        | _ => (false, r)
        end in
      if String.eqb ds "" then None
      else match digits_value 10 ds 0 with
           | Some e => Some (if neg : bool then - e else e)
           | None => None
           end
    else None
  end.

(** StrUnsignedDecimalLiteral other than [Infinity], as a pair [(m, e)]
    denoting [m * 10^e]. *)
Definition unsigned_decimal (s : string) : option (Z * Z) :=
  let '(d1, r1) := span_digits s in
  let '(d2, r2) :=
    match r1 with
    | String "." r => span_digits r
    | _ => (EmptyString, r1)
    end in
  if String.eqb d1 "" && String.eqb d2 "" then None
  else
    match digits_value 10 (d1 +:+ d2) 0, exponent_part r2 with
    | Some m, Some e => Some (m, e - Z.of_nat (String.length d2))
    | _, _ => None
    end.

(** The double nearest to [m * 10^e], with the sign [neg]. *)
Definition round_decimal (neg : bool) (m e : Z) : spec_float :=
  if m =? 0 then S754_zero neg
  else if 0 <=? e then binary_normalize prec emax ((if neg then -1 else 1) * (m * 10 ^ e)) 0 neg
  else
    let '(q, e', l) := SFdiv_core_binary prec emax m 0 (10 ^ (- e)) 0 in
    binary_round_aux prec emax neg q e' l.

Definition signed_decimal (s : string) : spec_float :=
  let '(neg, u) :=
    match s with
    | String "+" r => (false, r)
    | String "-" r => (true, r)
    | _ => (false, s)
    end in
  if String.eqb u "Infinity" then S754_infinity neg
  else match unsigned_decimal u with
       | Some (m, e) => round_decimal neg m e
       | None => S754_nan
       end.

Definition radix_literal (radix : Z) (ds : string) : spec_float :=
  if String.eqb ds "" then S754_nan
  else match digits_value radix ds 0 with
       | Some n => of_Z n
       | None => S754_nan
       end.

Definition StringToNumber (s : string) : spec_float :=
  let t := trim_end (trim_start s) in
  match t with
  | EmptyString => S754_zero false
  | String "0" (String c ds) =>
    if Ascii.eqb c "x" || Ascii.eqb c "X" then radix_literal 16 ds
    else if Ascii.eqb c "o" || Ascii.eqb c "O" then radix_literal 8 ds
    else if Ascii.eqb c "b" || Ascii.eqb c "B" then radix_literal 2 ds
    else signed_decimal t
  | _ => signed_decimal t
  end.

(** [Number(v)] for a primitive or plain-object argument. *)
Definition Number_ (v : Value) : spec_float :=
  match v with
  | Undefined => S754_nan
  | Null => S754_zero false
  | Bool b => if b then of_Z 1 else S754_zero false
  | Num x => x
  | Str s => StringToNumber s
  | Obj _ => S754_nan
  end.

(** *** [Math.random().toString(36)]

    A number drawn in the interval from 0 (included) to 1 (excluded) is
    represented by the fraction digits of its radix-36 rendering, which
    the language leaves to the implementation: no digit for [0], whose
    rendering is ["0"], and otherwise the digits after ["0."]. A digit
    is taken modulo 36, so that every list denotes a rendering. *)
Definition Random : Type := list nat.

Definition digits36 : string := "0123456789abcdefghijklmnopqrstuvwxyz".

Definition digit36 (d : nat) : ascii :=
  match String.get (d mod 36) digits36 with
  | Some c => c
  | None => "0"%char
  end.

Fixpoint fraction36 (ds : list nat) : string :=
  match ds with
  | [] => EmptyString
  | d :: ds' => String (digit36 d) (fraction36 ds')
  end.

Definition toString36 (x : Random) : string :=
  match x with
  | [] => "0"
  | _ => "0." +:+ fraction36 x
  end.

(** *** [Number::toString(x)] in radix 10 *)

(** Decimal digits of a non-negative integer, most significant first;
    [fuel] bounds their number. *)
Fixpoint digits_of (fuel : nat) (n : Z) (acc : string) : string :=
  match fuel with
  | O => acc
  | S fuel' =>
    let acc' := String (ascii_of_nat (Z.to_nat (48 + n mod 10))) acc in
    if n <? 10 then acc' else digits_of fuel' (n / 10) acc'
  end.

Definition decimal (n : Z) : string :=
  digits_of (S (Z.to_nat (Z.log2 n))) n "".

Fixpoint zeros (n : nat) : string :=
  match n with O => EmptyString | S n' => String "0" (zeros n') end.

(** Whether [num / den >= 10^n], for positive [num] and [den]. *)
Definition ge_pow10 (num den n : Z) : bool :=
  if 0 <=? n then den * 10 ^ n <=? num else den <=? num * 10 ^ (- n).

(** The least [n >= start] with [num / den < 10^n]. *)
Fixpoint magnitude (fuel : nat) (num den start : Z) : Z :=
  match fuel with
  | O => start
  | S fuel' =>
    if ge_pow10 num den start then magnitude fuel' num den (start + 1)
    else start
  end.

Definition same_number (x y : spec_float) : bool :=
  match x, y with
  | S754_finite sx mx ex, S754_finite sy my ey =>
    Bool.eqb sx sy && Pos.eqb mx my && Z.eqb ex ey
  | _, _ => false
  end.

(** The shortest digits: the least [k] with an integer [s] of [k] digits
    and an [n] such that [s * 10^(n-k)] converts to [x]; of two such [s]
    the one nearer to [x], the even one on a tie. The result is [(s, n)]. *)
Fixpoint shortest (fuel : nat) (x : spec_float) (num den n0 k : Z) : Z * Z :=
  let sc := k - n0 in
  let '(a, b) := if 0 <=? sc then (num * 10 ^ sc, den) else (num, den * 10 ^ (- sc)) in
  let t := a / b in
  let r := a mod b in
  let lo_ok := same_number (round_decimal false t (n0 - k)) x in
  let hi_ok := same_number (round_decimal false (t + 1) (n0 - k)) x in
  let lo := (t, n0) in
  let hi := if t + 1 =? 10 ^ k then (10 ^ (k - 1), n0 + 1) else (t + 1, n0) in
  let pick :=
    if lo_ok && hi_ok then
      Some (if 2 * r <? b then lo
            else if b <? 2 * r then hi
            else if Z.even t then lo else hi)
    else if lo_ok then Some lo
    else if hi_ok then Some hi
    else None in
  match pick, fuel with
  | Some p, _ => p
  | None, O => lo
  | None, S fuel' => shortest fuel' x num den n0 (k + 1)
  end.

Definition finite_to_string (m : positive) (e : Z) : string :=
  let x := binary_normalize prec emax (Z.pos m) e false in
  let '(num, den) := if 0 <=? e then (Z.pos m * 2 ^ e, 1) else (Z.pos m, 2 ^ (- e)) in
  let est := ((Z.log2 num - Z.log2 den) * 30103) / 100000 in
  let n0 := magnitude 8 num den (est - 2) in
  let '(s, n) := shortest 17 x num den n0 1 in
  let ds := decimal s in
  let k := Z.of_nat (String.length ds) in
  if (k <=? n) && (n <=? 21) then ds +:+ zeros (Z.to_nat (n - k))
  else if (0 <? n) && (n <=? 21) then
    String.substring 0 (Z.to_nat n) ds +:+ "."
    +:+ String.substring (Z.to_nat n) (Z.to_nat (k - n)) ds
  else if (-6 <? n) && (n <=? 0) then
    "0." +:+ zeros (Z.to_nat (- n)) +:+ ds
  else
    let ex := n - 1 in
    let sign := if ex <? 0 then "-" else "+" in
    let mant :=
      if k =? 1 then ds
      else String.substring 0 1 ds +:+ "."
           +:+ String.substring 1 (Z.to_nat (k - 1)) ds in
    mant +:+ "e" +:+ sign +:+ decimal (Z.abs ex).

Definition NumberToString (x : spec_float) : string :=
  match x with
  | S754_nan => "NaN"
  | S754_zero _ => "0"
  | S754_infinity false => "Infinity"
  | S754_infinity true => "-Infinity"
  | S754_finite false m e => finite_to_string m e
  | S754_finite true m e => "-" +:+ finite_to_string m e
  end.

(** *** Completions: a value, or a thrown exception *)

Inductive Completion (A : Type) : Type :=
| Normal (a : A)
| Throw (e : Value).

Arguments Normal {A} a.
Arguments Throw {A} e.

(** A [TypeError]; its message is left out. *)
Definition TypeError : Value := Obj [("name", Str "TypeError")]%string.

Fixpoint has_key (k : string) (fields : list (string * Value)) : bool :=
  match fields with
  | [] => false
  | (k', _) :: rest => String.eqb k k' || has_key k rest
  end.

(** The property read [v.k], for a name [k] that no prototype defines
    (such as [originalname] and [mimetype]): a [TypeError] on
    [undefined] and [null], the own property of an object, and
    [undefined] on the other primitives. *)
Definition Get (v : Value) (k : string) : Completion Value :=
  match v with
  | Undefined | Null => Throw TypeError
  | Obj fields => Normal (assoc k fields)
  | Bool _ | Num _ | Str _ => Normal Undefined
  end.

(** [ToString(v)]. An object here is an ordinary object whose own
    properties hold no function: it converts through
    [Object.prototype.toString], unless an own property [toString]
    hides that method, in which case the conversion finds no method to
    call and throws. *)
Definition ToString (v : Value) : Completion string :=
  match v with
  | Undefined => Normal "undefined"
  | Null => Normal "null"
  | Bool b => Normal (if b then "true" else "false")
  | Num x => Normal (NumberToString x)
  | Str s => Normal s
  | Obj fields =>
    if has_key "toString" fields then Throw TypeError
    else Normal "[object Object]"
  end.

End JS.

(** ** Node's [path.extname] (POSIX flavour) *)

Module path.

(** State of the right-to-left scan of [extname]. *)
Record Scan : Type := mkScan {
  startDot : Z;
  startPart : Z;
  end_ : Z;
  matchedSlash : bool;
  preDotState : Z
}.

Definition scan0 : Scan :=
  {| startDot := -1; startPart := 0; end_ := -1;
     matchedSlash := true; preDotState := 0 |}.

Definition CHAR_FORWARD_SLASH : ascii := "/"%char.
Definition CHAR_DOT : ascii := "."%char.

(** The loop [for (i = path.length - 1; i >= 0; --i)]: [scan p n st]
    runs the iterations [i = n - 1] down to [0]. *)
Fixpoint scan (p : string) (n : nat) (st : Scan) : Scan :=
  match n with
  | O => st
  | S i =>
    match String.get i p with
    | None => st
    | Some code =>
      if Ascii.eqb code CHAR_FORWARD_SLASH then
        if negb (matchedSlash st) then
          (* a separator left of the last component: break *)
          mkScan (startDot st) (Z.of_nat i + 1) (end_ st)
                 (matchedSlash st) (preDotState st)
        else scan p i st
      else
        let st1 :=
          if end_ st =? -1
          then mkScan (startDot st) (startPart st) (Z.of_nat i + 1)
                      false (preDotState st)
          else st in
        let st2 :=
          if Ascii.eqb code CHAR_DOT then
            if startDot st1 =? -1
            then mkScan (Z.of_nat i) (startPart st1) (end_ st1)
                        (matchedSlash st1) (preDotState st1)
            else if negb (preDotState st1 =? 1)
                 then mkScan (startDot st1) (startPart st1) (end_ st1)
                             (matchedSlash st1) 1
                 else st1
          else if negb (startDot st1 =? -1)
               then mkScan (startDot st1) (startPart st1) (end_ st1)
                           (matchedSlash st1) (-1)
               else st1 in
        scan p i st2
    end
  end.

Definition no_extension (st : Scan) : bool :=
  (startDot st =? -1)
  || (end_ st =? -1)
  || (preDotState st =? 0)
  || ((preDotState st =? 1)
      && (startDot st =? end_ st - 1)
      && (startDot st =? startPart st + 1)).

Definition extname (p : string) : string :=
  let st := scan p (String.length p) scan0 in
  if no_extension st then ""%string
  else JS.slice p (Z.to_nat (startDot st)) (Z.to_nat (end_ st)).

(** [path.extname(v)] on any value: [validateString] throws unless the
    argument is a string. *)
Definition extname_checked (v : JS.Value) : JS.Completion string :=
  match v with
  | JS.Str p => JS.Normal (extname p)
  | _ => JS.Throw JS.TypeError
  end.

End path.

(** ** The world outside the process: bucket, S3 service, console, random
    source *)

Module Express.
Module Multer.
(** [Express.Multer.File] as the filter and the key function see it. *)
Record File : Type := mkFile {
  fieldname : string;
  originalname : string;
  mimetype : string
}.
End Multer.
End Express.

Module S3.

(** A file part of a multipart body: its header and the length in bytes
    of its stream. *)
Record Part : Type := mkPart {
  header : Express.Multer.File;
  size : Z
}.

(** The commands handed to [s3.send], with the parameters that matter
    here. A multipart upload is identified by its bucket and key; the
    command that completes it names its parts by number, and stands
    here with the object those parts make up. *)
Inductive Command : Type :=
| PutObjectCommand (Bucket Key ACL : string) (Body : Part)
| CreateMultipartUploadCommand (Bucket Key ACL : string)
| UploadPartCommand (Bucket Key : string) (PartNumber ContentLength : Z)
| CompleteMultipartUploadCommand (Bucket Key ACL : string) (Body : Part)
| AbortMultipartUploadCommand (Bucket Key : string)
| DeleteObjectCommand (Bucket Key : JS.Value).

Record Object : Type := mkObject {
  acl : string;
  content : Part
}.

(** An error the service or the client raises. *)
Record Error : Type := mkError {
  name : string;
  message : string
}.

Definition error_value (e : Error) : JS.Value :=
  JS.Obj [("name", JS.Str (name e)); ("message", JS.Str (message e))]%string.

Definition output (httpStatusCode : Z) : JS.Value :=
  JS.Obj [("$metadata",
           JS.Obj [("httpStatusCode", JS.Num (JS.of_Z httpStatusCode))])]%string.

(** Effect of a command the service accepts. *)
Definition apply (c : Command) (b : gmap (string * string) Object)
  : gmap (string * string) Object :=
  match c with
  | PutObjectCommand bkt k a body
  | CompleteMultipartUploadCommand bkt k a body =>
    <[(bkt, k) := mkObject a body]> b
  | DeleteObjectCommand (JS.Str bkt) (JS.Str k) => delete (bkt, k) b
  | _ => b
  end.

Definition result (c : Command) : JS.Value :=
  match c with
  | AbortMultipartUploadCommand _ _ | DeleteObjectCommand _ _ => output 204
  | _ => output 200
  end.

End S3.

Record World : Type := mkWorld {
  (** contents of the buckets, by bucket name and key *)
  bucket : gmap (string * string) S3.Object;
  (** every command sent to the service, oldest first *)
  s3_log : list S3.Command;
  (** whether the service (or the client, or the network) fails a
      command, given the commands sent before *)
  s3_failure : list S3.Command -> S3.Command -> option S3.Error;
  (** the numbers [Math.random()] returns, by call index *)
  random : nat -> JS.Random;
  random_calls : nat;
  (** lines written by [console.log] and [console.error] *)
  console : list (list JS.Value)
}.

(** State monad over the world. *)
Definition M (A : Type) : Type := World -> A * World.

#[global] Instance M_ret : MRet M := fun A (a : A) w => (a, w).
#[global] Instance M_bind : MBind M :=
  fun A B (f : A -> M B) (m : M A) w => let '(a, w') := m w in f a w'.

(** Computations that act on a state [S] and may throw. *)
Definition Eff (S A : Type) : Type := S -> JS.Completion A * S.

#[global] Instance Eff_ret {S} : MRet (Eff S) :=
  fun A (a : A) s => (JS.Normal a, s).
#[global] Instance Eff_bind {S} : MBind (Eff S) :=
  fun A B (f : A -> Eff S B) (m : Eff S A) s =>
    match m s with
    | (JS.Normal a, s') => f a s'
    | (JS.Throw e, s') => (JS.Throw e, s')
    end.

(** A completion as a computation that leaves the state alone. *)
Definition lift {S A} (c : JS.Completion A) : Eff S A := fun s => (c, s).

Definition Math_random : M JS.Random := fun w =>
  (random w (random_calls w),
   mkWorld (bucket w) (s3_log w) (s3_failure w) (random w)
           (S (random_calls w)) (console w)).

Definition console_log (args : list JS.Value) : M unit := fun w =>
  (tt, mkWorld (bucket w) (s3_log w) (s3_failure w) (random w)
               (random_calls w) (console w ++ [args])).

(** [console.error] writes to the same console, on another stream. *)
Definition console_error (args : list JS.Value) : M unit := console_log args.

(** [s3.send(command)]: the promise it returns, settled; [inl] is a
    rejection, [inr] a fulfilment. A failed command changes nothing. *)
Definition s3_send (c : S3.Command) : M (JS.Value + JS.Value) := fun w =>
  match s3_failure w (s3_log w) c with
  | Some e =>
    (inl (S3.error_value e),
     mkWorld (bucket w) (s3_log w ++ [c]) (s3_failure w) (random w)
             (random_calls w) (console w))
  | None =>
    (inr (S3.result c),
     mkWorld (S3.apply c (bucket w)) (s3_log w ++ [c]) (s3_failure w)
             (random w) (random_calls w) (console w))
  end.

(** ** Express: requests and the response object *)

Module express.

(** [req.file] once the storage engine has stored the part: the header
    of the part extended with what the engine reports, of which the
    bucket, the key and the access-control setting are kept. *)
Record StoredFile : Type := mkStoredFile {
  info : Express.Multer.File;
  bucket : string;
  key : string;
  acl : string
}.

(** A request. Its multipart body holds at most one file part that
    carries a file name, as in the contract of the upload route; a body
    with several is outside the model, because the error multer reports
    for it depends on when the storage service answers. *)
Record Request : Type := mkRequest {
  (** the file part of a multipart body, if any *)
  part : option S3.Part;
  (** [req.body] as [express.json()] leaves it: an object *)
  body : list (string * JS.Value);
  (** [req.file] *)
  file : option StoredFile
}.

Inductive Body : Type :=
| Json (v : JS.Value)
| Text (s : string).

Record Response : Type := mkResponse {
  status : Z;
  payload : Body
}.

(** The response object: the status code to use, 200 until
    [res.status] changes it, and the responses sent so far. *)
Record Res : Type := mkRes {
  statusCode : Z;
  sent : list Response
}.

Definition res0 : Res := {| statusCode := 200; sent := [] |}.

Definition res_status (code : Z) (res : Res) : Res :=
  {| statusCode := code; sent := sent res |}.

Definition res_json (v : JS.Value) (res : Res) : Res :=
  {| statusCode := statusCode res;
     sent := sent res ++ [mkResponse (statusCode res) (Json v)] |}.

Definition res_send (s : string) (res : Res) : Res :=
  {| statusCode := statusCode res;
     sent := sent res ++ [mkResponse (statusCode res) (Text s)] |}.

(** A middleware called as [mw(req, res, next)]: the argument it passes
    to [next] ([undefined] when there is no error) and the request as
    it leaves it. *)
Definition Middleware : Type := Request -> M (JS.Value * Request).

End express.

(** ** The upload libraries: lib-storage, multer, multer-s3

    Third-party code, outside the repository, modelled from the sources
    of the libraries: busboy 1.x (the multipart parser of multer
    1.4.5-lts), multer-s3 3.x and @aws-sdk/lib-storage 3.x. Each model
    keeps the steps that send a command, draw a random number or decide
    what the middleware reports. *)

Module libStorage.

(** The default part size, 5 MiB. *)
Definition partSize : Z := 5242880.

(** [getChunk]: while more than [partSize] bytes are buffered a part of
    [partSize] bytes is cut off; what is left when the stream ends is
    the last part. *)
Fixpoint cut (fuel : nat) (rest : Z) : list Z :=
  match fuel with
  | O => [rest]
  | S fuel' =>
    if partSize <? rest then partSize :: cut fuel' (rest - partSize)
    else [rest]
  end.

(** The sizes of the parts of a stream of [n] bytes. *)
Definition chunks (n : Z) : list Z := cut (Z.to_nat (n / partSize)) n.

(** One [UploadPartCommand] per part, numbered from [i]; the errors of
    the parts that failed. Every part is sent, whether an earlier one
    failed or not: the library runs four uploaders side by side, each
    of which stops at its own failure only, and the size limit of the
    application leaves a stream three parts at most. *)
Fixpoint upload_parts (Bucket Key : string) (i : Z) (sizes : list Z)
  : M (list JS.Value) :=
  match sizes with
  | [] => mret []
  | n :: rest =>
    r ← s3_send (S3.UploadPartCommand Bucket Key i n);
    errs ← upload_parts Bucket Key (i + 1) rest;
    mret (match r with inl e => e :: errs | inr _ => errs end)
  end.

(** [new Upload({ client, params }).done()] on a stream body: one
    [PutObjectCommand] when the body is a single part; otherwise a
    multipart upload, which is aborted when a part failed and completed
    when none did. The commands are taken in the order of the parts. *)
Definition done (Bucket Key ACL : string) (Body : S3.Part)
  : M (JS.Value + JS.Value) :=
  match chunks (S3.size Body) with
  | [_] => s3_send (S3.PutObjectCommand Bucket Key ACL Body)
  | sizes =>
    r ← s3_send (S3.CreateMultipartUploadCommand Bucket Key ACL);
    match r with
    | inl e => mret (inl e)
    | inr _ =>
      errs ← upload_parts Bucket Key 1 sizes;
      match errs with
      | e :: _ =>
        a ← s3_send (S3.AbortMultipartUploadCommand Bucket Key);
        mret (inl (match a with inl e' => e' | inr _ => e end))
      | [] => s3_send (S3.CompleteMultipartUploadCommand Bucket Key ACL Body)
      end
    end
  end.

End libStorage.

Module multer.

Record Limits : Type := mkLimits { fileSize : Z }.

(** What a storage engine reports for a stored file. *)
Record Info : Type := mkInfo {
  bucket : string;
  key : string;
  acl : string
}.

(** A storage engine. [_handleFile] is given the part as the parser
    streams it and reports an error or the description of the stored
    file; [_removeFile] is given what [_handleFile] reported for the
    file to remove, if it reported anything. *)
Record StorageEngine : Type := mkStorageEngine {
  _handleFile : express.Request -> S3.Part -> M (JS.Value + Info);
  _removeFile : express.Request -> option Info -> M (JS.Value + JS.Value)
}.

(** [fileFilter(req, file, cb)] calls [cb] with a list of arguments:
    [cb(err)] or [cb(null, include)]. *)
Definition FileFilter : Type :=
  forall R : Type,
    express.Request -> Express.Multer.File -> (list JS.Value -> R) -> R.

Record Options : Type := mkOptions {
  storage : StorageEngine;
  limits : Limits;
  fileFilter : FileFilter
}.

(** A [MulterError], by its name, message, code and field. *)
Definition MulterError (code message field : string) : JS.Value :=
  JS.Obj [("name", JS.Str "MulterError"); ("message", JS.Str message);
          ("code", JS.Str code); ("field", JS.Str field)]%string.

Definition LIMIT_UNEXPECTED_FILE (field : string) : JS.Value :=
  MulterError "LIMIT_UNEXPECTED_FILE" "Unexpected field" field.

Definition LIMIT_FILE_SIZE (field : string) : JS.Value :=
  MulterError "LIMIT_FILE_SIZE" "File too large" field.

Definition extend (f : Express.Multer.File) (i : Info) : express.StoredFile :=
  express.mkStoredFile f (bucket i) (key i) (acl i).

Definition with_file (req : express.Request) (f : express.StoredFile)
  : express.Request :=
  express.mkRequest (express.part req) (express.body req) (Some f).

(** The parser hands on at most [limits.fileSize] bytes of a part. *)
Definition truncate (o : Options) (p : S3.Part) : S3.Part :=
  S3.mkPart (S3.header p) (Z.min (S3.size p) (fileSize (limits o))).

(** The parser raises its [limit] event as soon as the bytes handed on
    reach [limits.fileSize]. *)
Definition limit_reached (o : Options) (p : S3.Part) : bool :=
  fileSize (limits o) <=? S3.size p.

(** [multer(options).single(name)]. A part of another field is refused
    before the filter. A part the filter lets through is streamed to
    the storage engine at once. If the parser raised [limit] meanwhile,
    the middleware waits for the engine, asks it to remove the file and
    reports [LIMIT_FILE_SIZE], whatever the engine reported;
    otherwise it reports the engine's error, or attaches the file to
    the request. *)
Definition single (o : Options) (name : string) : express.Middleware :=
  fun req =>
    match express.part req with
    | None => mret (JS.Undefined, req)
    | Some p =>
      let f := S3.header p in
      if negb (String.eqb (Express.Multer.fieldname f) name)
      then mret (LIMIT_UNEXPECTED_FILE (Express.Multer.fieldname f), req)
      else
        fileFilter o _ req f (fun args =>
          let err := nth 0 args JS.Undefined in
          let include := nth 1 args JS.Undefined in
          if JS.truthy err then mret (err, req)
          else if negb (JS.truthy include) then mret (JS.Undefined, req)
          else
            r ← _handleFile (storage o) req (truncate o p);
            if limit_reached o p then
              _ ← _removeFile (storage o) req
                    (match r with inr i => Some i | inl _ => None end);
              mret (LIMIT_FILE_SIZE name, req)
            else
              match r with
              | inl e => mret (e, req)
              | inr i => mret (JS.Undefined, with_file req (extend f i))
              end)
    end.

End multer.

Module multerS3.

(** [key(req, file, cb)] calls [cb(err, key)]. *)
Definition KeyFunction : Type :=
  forall R : Type,
    express.Request -> Express.Multer.File ->
    (JS.Value -> string -> M R) -> M R.

Record Options : Type := mkOptions {
  bucket : string;
  acl : string;
  key : KeyFunction
}.

(** The storage engine. To handle a file it asks for the key, then
    uploads the stream to the bucket under it; the info it reports
    carries that key. To remove a file it sends a
    [DeleteObjectCommand] with the bucket and key of the file, which
    are [undefined] when the upload reported nothing. *)
Definition storage (o : Options) : multer.StorageEngine :=
  {| multer._handleFile := fun req p =>
       key o _ req (S3.header p) (fun err k =>
         if JS.truthy err then mret (inl err)
         else
           r ← libStorage.done (bucket o) k (acl o) p;
           match r with
           | inl e => mret (inl e)
           | inr _ => mret (inr (multer.mkInfo (bucket o) k (acl o)))
           end);
     multer._removeFile := fun req i =>
       match i with
       | Some i =>
         s3_send (S3.DeleteObjectCommand (JS.Str (multer.bucket i))
                                         (JS.Str (multer.key i)))
       | None => s3_send (S3.DeleteObjectCommand JS.Undefined JS.Undefined)
       end |}.

End multerS3.

(** ** The application, [src/index.ts] *)

Module App.
Section WithEnv.

(** [process.env] after [dotenv.config()] *)
Variable env : gmap string string.

(** [const port = Number(process.env.APP_PORT) || 5000] *)
Definition port : JS.Value :=
  JS.or (JS.Num (JS.Number_ (JS.of_option (env !! "APP_PORT"))))
        (JS.Num (JS.of_Z 5000)).

(** [app.get('/')] *)
Definition get_root (req : express.Request) (res : express.Res)
  : M express.Res :=
  mret (express.res_send "Express + TypeScript Server" res).

(** [/jpeg|jpg|png|gif/] *)
Definition filetypes : JS.RegExp := ["jpeg"; "jpg"; "png"; "gif"]%string.

Definition checkFileType {R : Type} (file : Express.Multer.File)
    (cb : list JS.Value -> R) : R :=
  let extname :=
    JS.test filetypes
      (JS.toLowerCase (path.extname (Express.Multer.originalname file))) in
  let mimetype := JS.test filetypes (Express.Multer.mimetype file) in
  if mimetype && extname then cb [JS.Null; JS.Bool true]
  else cb [JS.Str "Error: Images Only!"].

Definition getRandomFileName (file : Express.Multer.File) : M string :=
  a ← Math_random;
  b ← Math_random;
  mret ((JS.substring (JS.toString36 a) 2 15
         +:+ JS.substring (JS.toString36 b) 2 15)
        +:+ path.extname (Express.Multer.originalname file)).

(** [const upload = multer({...}).single('image')] *)
Definition upload : express.Middleware :=
  multer.single
    {| multer.storage :=
         multerS3.storage
           {| multerS3.bucket := JS.String_ (env !! "AWS_BUCKET_NAME");
              multerS3.acl := "public-read";
              multerS3.key := fun R req file cb =>
                n ← getRandomFileName file;
                cb JS.Null ("saskengallery/" +:+ n) |};
       multer.limits := {| multer.fileSize := 11000000 |};
       multer.fileFilter := fun R req file cb => checkFileType file cb |}
    "image".

(** The callback [(error) => {...}] of the upload route; [req] is the
    request as the middleware left it. *)
Definition upload_done (req : express.Request) (res : express.Res)
    (error : JS.Value) : express.Res :=
  if JS.truthy error then
    express.res_json (JS.Obj [("error", error)]%string) res
  else
    match express.file req with
    | None =>
      express.res_json (JS.Obj [("error", JS.Str "No File Selected")]%string) res
    | Some f =>
      express.res_json
        (JS.Obj [("response", JS.Str "Image Uploaded Successfully!");
                 ("fileUrl",
                  JS.Str (JS.String_ (env !! "AWS_BUCKET_PATH")
                          +:+ "/" +:+ express.key f))]%string)
        res
    end.

(** [app.post('/upload')], over the upload middleware [mw] *)
Definition post_upload_with (mw : express.Middleware)
    (req : express.Request) (res : express.Res) : M express.Res :=
  '(error, req') ← mw req;
  mret (upload_done req' res error).

Definition post_upload : express.Request -> express.Res -> M express.Res :=
  post_upload_with upload.

(** [app.delete('/delete')] *)
Definition delete_delete (req : express.Request) (res : express.Res)
  : M express.Res :=
  let key := JS.assoc "key" (express.body req) in
  let Bucket := JS.String_ (env !! "AWS_BUCKET_NAME") in
  r ← s3_send (S3.DeleteObjectCommand (JS.Str Bucket) key);
  match r with
  | inr ress =>
    _ ← console_log [ress];
    mret (express.res_json
            (JS.Obj [("message", JS.Str "File deleted successfully")]%string)
            res)
  | inl error =>
    _ ← console_error [JS.Str "Error deleting file:"; error];
    mret (express.res_json
            (JS.Obj [("error", JS.Str "Failed to delete file from S3")]%string)
            (express.res_status 500 res))
  end.

End WithEnv.

(** [checkFileType] on any value: the parameter [file] has the type
  [any]. The callback acts on a state of its own and may throw. *)
Module Untyped.

Definition checkFileType {S : Type} (file : JS.Value)
    (cb : list JS.Value -> Eff S JS.Value) : Eff S JS.Value :=
  originalname ← lift (JS.Get file "originalname");
  ext ← lift (path.extname_checked originalname);
  let extname := JS.test filetypes (JS.toLowerCase ext) in
  mime ← lift (JS.Get file "mimetype");
  str ← lift (JS.ToString mime);
  let mimetype := JS.test filetypes str in
  if mimetype && extname then cb [JS.Null; JS.Bool true]
  else
    _ ← cb [JS.Str "Error: Images Only!"];
    mret JS.Undefined.

End Untyped.

End App.

(** ** Vocabulary of the statements *)

(** A digit of radix 36 as [toString(36)] writes it: 0-9 or a-z. *)
Definition is_base36 (c : ascii) : bool :=
  let n := nat_of_ascii c in
  ((48 <=? n)%nat && (n <=? 57)%nat) || ((97 <=? n)%nat && (n <=? 122)%nat).

(** Every code unit of the string satisfies [P]. *)
Fixpoint string_forallb (P : ascii -> bool) (s : string) : bool :=
  match s with
  | EmptyString => true
  | String c s' => P c && string_forallb P s'
  end.

(** The fragment [Math.random().toString(36).substring(2, 15)] of a
    drawn number. *)
Definition fragment (x : JS.Random) : string :=
  JS.substring (JS.toString36 x) 2 15.

(** The dot found by the scan, if any, is a dot of the path and lies
    before the end of the last component. *)
Definition dot_ok (p : string) (st : path.Scan) : Prop :=
  path.startDot st = -1 \/
  (0 <= path.startDot st < path.end_ st /\
   String.get (Z.to_nat (path.startDot st)) p = Some path.CHAR_DOT).

(** Invariant of the scan before the iteration of index [n - 1]. *)
Definition scan_inv (p : string) (n : nat) (st : path.Scan) : Prop :=
  (path.end_ st = -1 \/ Z.of_nat n < path.end_ st) /\ dot_ok p st.

(** Whether the filter lets a file through: both tests of
    [checkFileType]. *)
Definition accepts (file : Express.Multer.File) : bool :=
  JS.test App.filetypes (Express.Multer.mimetype file)
  && JS.test App.filetypes
       (JS.toLowerCase (path.extname (Express.Multer.originalname file))).

(** The token the next key gets in the world [w]: the fragments of the
    next two draws of the random source. *)
Definition token_at (w : World) : string :=
  fragment (random w (random_calls w))
  +:+ fragment (random w (S (random_calls w))).

(** The key the upload route gives the file [f] in the world [w]. *)
Definition key_at (w : World) (f : Express.Multer.File) : string :=
  "saskengallery/"
  +:+ (token_at w +:+ path.extname (Express.Multer.originalname f)).

(** The put command of the upload route for the part [p]. *)
Definition put_of (env : gmap string string) (w : World) (p : S3.Part) : S3.Command :=
  S3.PutObjectCommand (JS.String_ (env !! "AWS_BUCKET_NAME"))
                      (key_at w (S3.header p)) "public-read" p.

(** The world after the key was drawn and the command [c] was sent. *)
Definition after_put (w : World) (c : S3.Command) (stored : bool) : World :=
  mkWorld (if stored then S3.apply c (bucket w) else bucket w)
          (s3_log w ++ [c]) (s3_failure w) (random w)
          (S (S (random_calls w))) (console w).

(** The world once the two numbers of a key are drawn. *)
Definition drawn (w : World) : World :=
  mkWorld (bucket w) (s3_log w) (s3_failure w) (random w)
          (S (S (random_calls w))) (console w).

(** What the storage engine is asked to remove after an upload that
    reported [r] for the bucket [bkt] and the key [k]. *)
Definition removal (bkt k : string) (r : JS.Value + JS.Value) : S3.Command :=
  match r with
  | inr _ => S3.DeleteObjectCommand (JS.Str bkt) (JS.Str k)
  | inl _ => S3.DeleteObjectCommand JS.Undefined JS.Undefined
  end.

(** The world is [w] but for its buckets and for the commands sent,
    which are those of [w] followed by others. *)
Definition later_world (w w' : World) : Prop :=
  (exists cs, s3_log w' = s3_log w ++ cs)
  /\ s3_failure w' = s3_failure w
  /\ random w' = random w
  /\ random_calls w' = random_calls w
  /\ console w' = console w.



(** Following the spec's words: the extension, compared without regard
    to case, is one of jpg, jpeg, png, gif. *)
Definition spec_extension_allowed (name : string) : bool :=
  existsb (String.eqb (JS.toLowerCase (path.extname name)))
          [".jpg"; ".jpeg"; ".png"; ".gif"]%string.

(** Following the spec's words: the declared MIME type is an image type
    of that set. *)
Definition spec_mime_allowed (mime : string) : bool :=
  existsb (String.eqb mime)
          ["image/jpg"; "image/jpeg"; "image/png"; "image/gif"]%string.


(** A number [Number(...) || d] keeps: neither a zero nor NaN. *)
Definition nonzero_number (x : spec_float) : bool :=
  match x with
  | S754_zero _ | S754_nan => false
  | _ => true
  end.

(** A JSON response under the status [code]. *)
Definition json_response (code : Z) (v : JS.Value) : express.Response :=
  express.mkResponse code (express.Json v).

(** The success body of the upload route. *)
Definition upload_ok (url : string) : JS.Value :=
  JS.Obj [("response", JS.Str "Image Uploaded Successfully!");
          ("fileUrl", JS.Str url)]%string.

(** The body [{ error: e }]. *)
Definition error_body (e : JS.Value) : JS.Value := JS.Obj [("error", e)]%string.

(** Sample data *)
Definition sample_env : gmap string string :=
  <["AWS_BUCKET_PATH" := "https://cdn.example"]>
    (<["AWS_BUCKET_NAME" := "gallery"]> ∅).

(** [Math.random()] returning 0.5, rendered ["0.i"] in radix 36. *)
Definition half : JS.Random := [18%nat].

(** A world with empty buckets, a service that accepts every command, and
    a random source that keeps returning [x]. *)
Definition quiet_world (x : JS.Random) : World :=
  mkWorld ∅ [] (fun _ _ => None) (fun _ => x) 0 [].

(** A world whose storage service is unreachable. *)
Definition offline_world : World :=
  mkWorld ∅ [] (fun _ _ => Some (S3.mkError "TimeoutError" "connect ETIMEDOUT"))
          (fun _ => half) 0 [].


(** A request carrying one file part under the field [image]. *)
Definition upload_request (name mime : string) (bytes : Z) : express.Request :=
  express.mkRequest
    (Some (S3.mkPart (Express.Multer.mkFile "image" name mime) bytes)) [] None.

(** A request without a file part. *)
Definition empty_request : express.Request := express.mkRequest None [] None.

(** A request whose JSON body has the given fields. *)
Definition delete_request (body : list (string * JS.Value)) : express.Request :=
  express.mkRequest None body None.

(** A text file dressed up with the words the filter looks for. *)
Definition disguised_file : Express.Multer.File :=
  Express.Multer.mkFile "image" "notes.jpgx" "text/x-png-notes".

(** Neither a path separator nor a dot. *)
Definition plain_unit (c : ascii) : bool :=
  negb (Ascii.eqb c path.CHAR_FORWARD_SLASH) && negb (Ascii.eqb c path.CHAR_DOT).

Definition not_slash (c : ascii) : bool :=
  negb (Ascii.eqb c path.CHAR_FORWARD_SLASH).

Definition not_dot (c : ascii) : bool := negb (Ascii.eqb c path.CHAR_DOT).

(** What the scan knows before the iteration of index [n - 1]: the units
    from [n] to the end of the component are no separators, and those
    after the dot, or all of them while no dot was met, are no dots. *)
Definition scan_clean (p : string) (n : nat) (st : path.Scan) : Prop :=
  (path.end_ st = -1 -> path.startDot st = -1)
  /\ (path.end_ st <> -1 ->
      path.matchedSlash st = false
      /\ Z.of_nat n < path.end_ st
      /\ forall (j : nat) c,
          Z.of_nat n <= Z.of_nat j < path.end_ st ->
          String.get j p = Some c -> c <> path.CHAR_FORWARD_SLASH)
  /\ (path.startDot st = -1 ->
      forall (j : nat) c,
        Z.of_nat n <= Z.of_nat j < path.end_ st ->
        String.get j p = Some c -> c <> path.CHAR_DOT)
  /\ (path.startDot st <> -1 ->
      Z.of_nat n <= path.startDot st < path.end_ st
      /\ forall (j : nat) c,
          path.startDot st < Z.of_nat j < path.end_ st ->
          String.get j p = Some c -> c <> path.CHAR_DOT).

(** What holds of the result of the scan. *)
Definition ext_clean (p : string) (st : path.Scan) : Prop :=
  path.startDot st = -1 \/
  (0 <= path.startDot st < path.end_ st
   /\ forall (j : nat) c,
       path.startDot st < Z.of_nat j < path.end_ st ->
       String.get j p = Some c -> plain_unit c = true).

(** Number of occurrences of a code unit in a string. *)
Fixpoint count_unit (c : ascii) (s : string) : nat :=
  match s with
  | EmptyString => 0
  | String d s' => (if Ascii.eqb d c then 1 else 0) + count_unit c s'
  end.

(** A lower-case letter a-z. *)
Definition is_lower_letter (c : ascii) : bool :=
  let n := nat_of_ascii c in (97 <=? n)%nat && (n <=? 122)%nat.

Definition no_lower_letter (c : ascii) : bool := negb (is_lower_letter c).

(** The success body of the delete route. *)
Definition deleted_ok : JS.Value :=
  JS.Obj [("message", JS.Str "File deleted successfully")]%string.

(** A decimal digit, 0-9. *)
Definition is_decimal_digit (c : ascii) : bool :=
  match JS.digit_of 10 c with Some _ => true | None => false end.

(** [P] holds of the [k] integers from [a] on. *)
Fixpoint all_from (P : Z -> bool) (a : Z) (k : nat) : bool :=
  match k with
  | O => true
  | S k' => P a && all_from P (a + 1) k'
  end.

(** * Properties *)

(** ** Strings *)

Section Strings.

Implicit Types (s t u : string) (c : ascii).

Lemma append_cons c s t : String c s +:+ t = String c (s +:+ t).
Proof. reflexivity. Qed.


Lemma length_append s t :
  String.length (s +:+ t) = (String.length s + String.length t)%nat.
Proof.
  induction s as [|c s IH]; [reflexivity|].
  rewrite append_cons. cbn [String.length]. now rewrite IH.
Qed.


Lemma substring_length_le n m s :
  (String.length (String.substring n m s) <= m)%nat.
Proof.
  revert n m. induction s as [|c s IH]; intros [|n] [|m]; cbn; try lia.
  - specialize (IH 0%nat m). lia.
  - apply (IH n 0%nat).
  - apply (IH n (S m)).
Qed.

Lemma substring_0_prefix m s :
  exists post, s = String.substring 0 m s +:+ post.
Proof.
  revert s. induction m as [|m IH]; intros s.
  - exists s. now destruct s.
  - destruct s as [|c s]; [now exists ""%string|].
    destruct (IH s) as [post E]. exists post.
    cbn [String.substring]. rewrite append_cons. now f_equal.
Qed.

(** A substring is a run of consecutive code units of the string,
    unchanged. *)
Lemma substring_infix n m s :
  exists pre post, s = pre +:+ String.substring n m s +:+ post.
Proof.
  revert s. induction n as [|n IH]; intros s.
  - destruct (substring_0_prefix m s) as [post E]. now exists ""%string, post.
  - destruct s as [|c s].
    + exists ""%string, ""%string. now destruct m.
    + destruct (IH s) as (pre & post & E).
      exists (String c pre), post.
      rewrite append_cons. cbn [String.substring]. now f_equal.
Qed.

Lemma substring_get n m s c :
  String.get n s = Some c ->
  exists r, String.substring n (S m) s = String c r.
Proof.
  revert s. induction n as [|n IH]; intros [|d s] H; cbn in H; try discriminate.
  - injection H as ->. cbn. eauto.
  - cbn [String.substring]. now apply IH.
Qed.

End Strings.

(** ** Random fragments *)

Section Fragments.

Lemma digit36_base36 d : is_base36 (JS.digit36 d) = true.
Proof.
  unfold JS.digit36.
  assert (H : (d mod 36 < 36)%nat) by (apply Nat.mod_upper_bound; lia).
  generalize dependent (d mod 36)%nat. intros k H.
  do 36 (destruct k as [|k]; [reflexivity|]). lia.
Qed.

Lemma fraction36_base36 ds : string_forallb is_base36 (JS.fraction36 ds) = true.
Proof.
  induction ds as [|d ds IH]; [reflexivity|].
  cbn. now rewrite digit36_base36, IH.
Qed.

Lemma substring_forallb P n m s :
  string_forallb P s = true ->
  string_forallb P (String.substring n m s) = true.
Proof.
  revert n m. induction s as [|c s IH]; intros [|n] [|m] H; cbn in *; trivial.
  - apply andb_true_iff in H as [-> H]. now rewrite (IH 0%nat m).
  - apply andb_true_iff in H as [_ H]. now apply IH.
  - apply andb_true_iff in H as [_ H]. now apply IH.
Qed.

Lemma append_forallb P s t :
  string_forallb P (s +:+ t) = string_forallb P s && string_forallb P t.
Proof.
  induction s as [|c s IH]; [reflexivity|].
  rewrite append_cons. cbn. now rewrite IH, andb_assoc.
Qed.

(** Dropping ["0."] leaves the fraction digits, of which at most 13 are
    kept; the rendering ["0"] of zero leaves nothing. *)
Lemma fragment_digits x : fragment x = String.substring 0 13 (JS.fraction36 x).
Proof. destruct x as [|d ds]; reflexivity. Qed.

Lemma fragment_length x : (String.length (fragment x) <= 13)%nat.
Proof. rewrite fragment_digits. apply substring_length_le. Qed.

Lemma fragment_base36 x : string_forallb is_base36 (fragment x) = true.
Proof.
  rewrite fragment_digits. apply substring_forallb, fraction36_base36.
Qed.

End Fragments.

(** ** The regular expression test *)

Section RegExp.

Lemma prefix_app lit s :
  String.prefix lit s = true <-> exists post, s = lit +:+ post.
Proof.
  revert s. induction lit as [|c lit IH]; intros s.
  - split; [intros _; now exists s | now destruct s].
  - destruct s as [|d s]; cbn.
    + split; [discriminate | intros [post E]; discriminate E].
    + destruct (ascii_dec c d) as [->|Hne].
      * rewrite IH. split; intros [post E]; exists post.
        -- rewrite append_cons. now f_equal.
        -- rewrite append_cons in E. now injection E.
      * split; [discriminate|].
        intros [post E]. rewrite append_cons in E. injection E as E _.
        congruence.
Qed.

(** [re.test(s)] holds exactly when an alternative of [re] occurs
    somewhere in [s]. *)
Lemma test_occurs (re : JS.RegExp) s :
  JS.test re s = true <->
  exists lit pre post, In lit re /\ s = pre +:+ lit +:+ post.
Proof.
  induction s as [|c s IH].
  - cbn. rewrite orb_false_r. unfold JS.match_here. rewrite existsb_exists.
    split.
    + intros (lit & Hin & Hp). apply prefix_app in Hp as [post E].
      now exists lit, ""%string, post.
    + intros (lit & pre & post & Hin & E). exists lit. split; [easy|].
      destruct pre; [|discriminate E]. apply prefix_app. eauto.
  - cbn [JS.test]. rewrite orb_true_iff, IH.
    unfold JS.match_here. rewrite existsb_exists. split.
    + intros [(lit & Hin & Hp) | (lit & pre & post & Hin & E)].
      * apply prefix_app in Hp as [post E]. now exists lit, ""%string, post.
      * exists lit, (String c pre), post. split; [easy|].
        rewrite append_cons. now f_equal.
    + intros (lit & pre & post & Hin & E). destruct pre as [|d pre].
      * left. exists lit. split; [easy|]. apply prefix_app. eauto.
      * right. rewrite append_cons in E. injection E as _ E. eauto 6.
Qed.

Lemma test_filetypes_nonempty s :
  JS.test App.filetypes s = true -> s <> ""%string.
Proof. intros H ->. discriminate H. Qed.

End RegExp.

(** ** [path.extname] *)

Section Extname.

Variable p : string.

Lemma scan_dot_ok n st : scan_inv p n st -> dot_ok p (path.scan p n st).
Proof.
  revert st. induction n as [|i IH]; intros st [Hend Hdot]; [exact Hdot|].
  cbn [path.scan].
  destruct (String.get i p) as [code|] eqn:G; [|exact Hdot].
  destruct (Ascii.eqb_spec code path.CHAR_FORWARD_SLASH) as [->|Hslash].
  - destruct (path.matchedSlash st) eqn:Hm; cbn [negb].
    + apply IH. split; [|exact Hdot]. destruct Hend; [now left | right; lia].
    + exact Hdot.
  - apply IH. unfold scan_inv, dot_ok in *.
    destruct (Ascii.eqb_spec code path.CHAR_DOT) as [->|Hd];
      repeat match goal with
             | |- context [Z.eqb ?a ?b] => destruct (Z.eqb_spec a b)
             | _ => progress cbn [negb path.startDot path.end_
                                  path.preDotState path.startPart
                                  path.matchedSlash]
             end;
      rewrite ?Nat2Z.id;
      destruct Hdot as [Hdot|[Hr Hg]]; destruct Hend as [Hend|Hend];
      try lia;
      (split; [right; lia | first [left; lia | right; split; [lia | assumption]]]).
Qed.

(** A non-empty extension starts with a dot. *)
Lemma extname_dot :
  path.extname p <> ""%string -> exists e, path.extname p = String "." e.
Proof.
  unfold path.extname.
  pose proof (scan_dot_ok (String.length p) path.scan0) as H.
  destruct (path.no_extension _) eqn:Hno; [congruence|]. intros _.
  unfold path.no_extension in Hno.
  repeat (apply orb_false_iff in Hno as [Hno ?]).
  destruct H as [H|[Hr Hg]].
  - split; [now left | now left].
  - apply Z.eqb_neq in Hno. congruence.
  - unfold JS.slice.
    replace (Z.to_nat (path.end_ _) - Z.to_nat (path.startDot _))%nat
      with (S (Z.to_nat (path.end_ (path.scan p (String.length p) path.scan0))
               - Z.to_nat (path.startDot (path.scan p (String.length p) path.scan0)) - 1))
      by lia.
    now apply substring_get.
Qed.

(** The extension is a run of code units of the path, unchanged. *)
Lemma extname_infix :
  exists pre post, p = pre +:+ path.extname p +:+ post.
Proof.
  unfold path.extname. destruct (path.no_extension _).
  - now exists ""%string, p.
  - apply substring_infix.
Qed.

End Extname.

Section Upload.

Variable env : gmap string string.

Lemma checkFileType_accepts {R} file (cb : list JS.Value -> R) :
  App.checkFileType file cb =
  cb (if accepts file then [JS.Null; JS.Bool true]
      else [JS.Str "Error: Images Only!"]).
Proof. unfold App.checkFileType, accepts. now destruct (_ && _). Qed.

(** The upload middleware, stage by stage. *)
Lemma upload_run req w :
  App.upload env req w =
  match express.part req with
  | None => (JS.Undefined, req, w)
  | Some p =>
    let f := S3.header p in
    if negb (String.eqb (Express.Multer.fieldname f) "image")
    then (multer.LIMIT_UNEXPECTED_FILE (Express.Multer.fieldname f), req, w)
    else if negb (accepts f)
    then (JS.Str "Error: Images Only!", req, w)
    else
      let bkt := JS.String_ (env !! "AWS_BUCKET_NAME") in
      let k := key_at w f in
      let '(r, w1) :=
        libStorage.done bkt k "public-read"
          (S3.mkPart f (Z.min (S3.size p) 11000000)) (drawn w) in
      if 11000000 <=? S3.size p then
        (multer.LIMIT_FILE_SIZE "image", req,
         snd (s3_send (removal bkt k r) w1))
      else
        match r with
        | inl e => (e, req, w1)
        | inr _ =>
          (JS.Undefined,
           multer.with_file req (express.mkStoredFile f bkt k "public-read"),
           w1)
        end
  end.
Proof.
  unfold App.upload, multer.single.
  destruct (express.part req) as [p|]; [|reflexivity].
  cbn [multer.fileFilter].
  destruct (negb _); [reflexivity|].
  rewrite checkFileType_accepts.
  destruct (accepts _); cbn [nth JS.truthy negb]; [|reflexivity].
  unfold multer.limit_reached, multer.truncate.
  cbn [multer.limits multer.fileSize multer.storage multerS3.storage
       multer._handleFile multer._removeFile multerS3.key multerS3.bucket
       multerS3.acl].
  unfold App.getRandomFileName, Math_random.
  repeat (unfold mbind, M_bind, mret, M_ret;
          cbn [random random_calls bucket s3_log s3_failure console
               S3.header JS.truthy]).
  change (JS.substring (JS.toString36 ?x) 2 15) with (fragment x).
  fold (token_at w). fold (key_at w (S3.header p)). fold (drawn w).
  destruct (libStorage.done _ _ _ _ (drawn w)) as [[e|out] w1];
    destruct (11000000 <=? S3.size p);
    cbn [multer.bucket multer.key multer.acl multer.extend removal];
    try reflexivity;
    match goal with
    | |- context [s3_send ?c w1] => destruct (s3_send c w1)
    end; reflexivity.
Qed.

End Upload.

(** ** The upload to the storage service *)

Section LibStorage.

Lemma later_world_refl w : later_world w w.
Proof.
  split; [exists []; now rewrite app_nil_r | repeat split].
Qed.

Lemma later_world_trans w1 w2 w3 :
  later_world w1 w2 -> later_world w2 w3 -> later_world w1 w3.
Proof.
  intros ([c1 L1] & F1 & R1 & N1 & C1) ([c2 L2] & F2 & R2 & N2 & C2).
  split; [exists (c1 ++ c2); now rewrite L2, L1, app_assoc|].
  repeat split; congruence.
Qed.

Lemma s3_send_later c w : later_world w (snd (s3_send c w)).
Proof.
  unfold s3_send. destruct (s3_failure w (s3_log w) c); cbn;
    (split; [now exists [c] | repeat split]).
Qed.


(** The parts change no bucket. *)
Lemma upload_parts_bucket bkt k i sizes w :
  bucket (snd (libStorage.upload_parts bkt k i sizes w)) = bucket w
  /\ later_world w (snd (libStorage.upload_parts bkt k i sizes w)).
Proof.
  revert i w. induction sizes as [|n rest IH]; intros i w.
  - split; [reflexivity | apply later_world_refl].
  - cbn [libStorage.upload_parts]. unfold mbind, M_bind.
    destruct (s3_send (S3.UploadPartCommand bkt k i n) w) as [r w1] eqn:E1.
    destruct (libStorage.upload_parts bkt k (i + 1) rest w1) as [errs w2] eqn:E2.
    cbn [snd mret M_ret].
    pose proof (IH (i + 1) w1) as [Hb Hl]. rewrite E2 in Hb, Hl. cbn in Hb, Hl.
    pose proof (s3_send_later (S3.UploadPartCommand bkt k i n) w) as Hs.
    rewrite E1 in Hs. cbn in Hs.
    split; [|now apply (later_world_trans w w1 w2)].
    rewrite Hb. unfold s3_send in E1.
    destruct (s3_failure w (s3_log w) _); injection E1 as _ <-; reflexivity.
Qed.

(** The upload leaves the random source, the console and the failures
    to come as they are. *)
Lemma done_later bkt k a body w :
  later_world w (snd (libStorage.done bkt k a body w)).
Proof.
  unfold libStorage.done.
  destruct (libStorage.chunks (S3.size body)) as [|n [|n' rest]].
  - unfold mbind, M_bind.
    destruct (s3_send (S3.CreateMultipartUploadCommand bkt k a) w)
      as [[e|out] w1] eqn:E1;
      pose proof (s3_send_later (S3.CreateMultipartUploadCommand bkt k a) w) as H1;
      rewrite E1 in H1; cbn in H1; [exact H1|].
    cbn [libStorage.upload_parts mret M_ret].
    eapply later_world_trans; [exact H1 | apply s3_send_later].
  - apply s3_send_later.
  - unfold mbind, M_bind.
    destruct (s3_send (S3.CreateMultipartUploadCommand bkt k a) w)
      as [[e|out] w1] eqn:E1;
      pose proof (s3_send_later (S3.CreateMultipartUploadCommand bkt k a) w) as H1;
      rewrite E1 in H1; cbn in H1; [exact H1|].
    destruct (libStorage.upload_parts bkt k 1 (n :: n' :: rest) w1)
      as [errs w2] eqn:E2.
    pose proof (upload_parts_bucket bkt k 1 (n :: n' :: rest) w1) as [_ H2].
    rewrite E2 in H2. cbn in H2.
    destruct errs as [|e errs].
    + eapply later_world_trans; [exact H1|].
      eapply later_world_trans; [exact H2 | apply s3_send_later].
    + destruct (s3_send (S3.AbortMultipartUploadCommand bkt k) w2)
        as [ab w3] eqn:E3.
      pose proof (s3_send_later (S3.AbortMultipartUploadCommand bkt k) w2) as H3.
      rewrite E3 in H3. cbn in H3. cbn [snd mret M_ret].
      eapply later_world_trans; [exact H1|].
      eapply later_world_trans; [exact H2 | exact H3].
Qed.

Lemma s3_send_stored c w out w' bkt k a body :
  (c = S3.PutObjectCommand bkt k a body
   \/ c = S3.CompleteMultipartUploadCommand bkt k a body) ->
  s3_send c w = (inr out, w') ->
  bucket w' !! (bkt, k) = Some (S3.mkObject a body).
Proof.
  intros Hc E. unfold s3_send in E.
  destruct (s3_failure w (s3_log w) c); [discriminate E|].
  injection E as _ <-. cbn [bucket].
  destruct Hc as [-> | ->]; cbn [S3.apply]; apply lookup_insert_eq.
Qed.

(** An upload that succeeds leaves the body in the bucket under the
    key. *)
Lemma done_stored bkt k a body w out w' :
  libStorage.done bkt k a body w = (inr out, w') ->
  bucket w' !! (bkt, k) = Some (S3.mkObject a body).
Proof.
  unfold libStorage.done.
  destruct (libStorage.chunks (S3.size body)) as [|n [|n' rest]].
  - unfold mbind, M_bind.
    destruct (s3_send (S3.CreateMultipartUploadCommand bkt k a) w)
      as [[e|o] w1]; [discriminate|].
    cbn [libStorage.upload_parts mret M_ret].
    intros E. eapply s3_send_stored; [|exact E]. now right.
  - intros E. eapply s3_send_stored; [|exact E]. now left.
  - unfold mbind, M_bind.
    destruct (s3_send (S3.CreateMultipartUploadCommand bkt k a) w)
      as [[e|o] w1]; [discriminate|].
    destruct (libStorage.upload_parts bkt k 1 (n :: n' :: rest) w1)
      as [[|e errs] w2].
    + intros E. eapply s3_send_stored; [|exact E]. now right.
    + destruct (s3_send (S3.AbortMultipartUploadCommand bkt k) w2).
      discriminate.
Qed.

Lemma s3_send_error c w e w' :
  s3_send c w = (inl e, w') -> JS.truthy e = true.
Proof.
  unfold s3_send. destruct (s3_failure w (s3_log w) c); intros H;
    [|discriminate H].
  now injection H as <- _.
Qed.

Lemma upload_parts_errors bkt k i sizes w :
  Forall (fun e => JS.truthy e = true)
         (fst (libStorage.upload_parts bkt k i sizes w)).
Proof.
  revert i w. induction sizes as [|n rest IH]; intros i w; [constructor|].
  cbn [libStorage.upload_parts]. unfold mbind, M_bind, mret, M_ret.
  destruct (s3_send (S3.UploadPartCommand bkt k i n) w) as [[e|o] w1] eqn:E;
    specialize (IH (i + 1) w1);
    destruct (libStorage.upload_parts bkt k (i + 1) rest w1) as [errs w2];
    cbn [fst] in *; [|exact IH].
  constructor; [now apply s3_send_error in E | exact IH].
Qed.

(** The error of a failed upload is a truthy value. *)
Lemma done_error bkt k a body w e w' :
  libStorage.done bkt k a body w = (inl e, w') -> JS.truthy e = true.
Proof.
  unfold libStorage.done.
  destruct (libStorage.chunks (S3.size body)) as [|n [|n' rest]].
  - unfold mbind, M_bind.
    destruct (s3_send (S3.CreateMultipartUploadCommand bkt k a) w)
      as [[e0|o] w1] eqn:E1.
    + intros H. injection H as <- _. now apply s3_send_error in E1.
    + cbn [libStorage.upload_parts mret M_ret]. apply s3_send_error.
  - apply s3_send_error.
  - unfold mbind, M_bind.
    destruct (s3_send (S3.CreateMultipartUploadCommand bkt k a) w)
      as [[e0|o] w1] eqn:E1.
    + intros H. injection H as <- _. now apply s3_send_error in E1.
    + pose proof (upload_parts_errors bkt k 1 (n :: n' :: rest) w1) as HF.
      destruct (libStorage.upload_parts bkt k 1 (n :: n' :: rest) w1)
        as [[|e1 errs] w2]; [apply s3_send_error|].
      cbn [fst] in HF. inversion HF as [|? ? He1 _]; subst.
      destruct (s3_send (S3.AbortMultipartUploadCommand bkt k) w2)
        as [[e2|o2] w3] eqn:E3; unfold mret, M_ret;
        intros H; injection H as <- _;
        [now apply s3_send_error in E3 | exact He1].
Qed.



End LibStorage.




(** On the files multer hands over, whose names and MIME types are
    strings, the function on any value is the typed one. *)
Lemma checkFileType_typed (S : Type) (f : Express.Multer.File)
    (cb : list JS.Value -> Eff S JS.Value) s :
  App.Untyped.checkFileType
    (JS.Obj [("fieldname", JS.Str (Express.Multer.fieldname f));
             ("originalname", JS.Str (Express.Multer.originalname f));
             ("mimetype", JS.Str (Express.Multer.mimetype f))]%string)
    cb s
  = App.checkFileType f
      (fun args =>
         match args with
         | [_] => match cb args s with
                  | (JS.Normal _, s') => (JS.Normal JS.Undefined, s')
                  | (JS.Throw e, s') => (JS.Throw e, s')
                  end
         | _ => cb args s
         end).
Proof.
  unfold App.Untyped.checkFileType, App.checkFileType, mbind, Eff_bind, lift.
  cbn [JS.Get JS.assoc String.eqb path.extname_checked JS.ToString].
  cbn.
  destruct (JS.test _ _ && JS.test _ _); [reflexivity|].
  destruct (cb _ s) as [[v|e] s']; reflexivity.
Qed.

Lemma port_cases env :
  App.port env =
  let x := JS.Number_ (JS.of_option (env !! "APP_PORT")) in
  if nonzero_number x then JS.Num x else JS.Num (JS.of_Z 5000).
Proof.
  unfold App.port, JS.or. cbv zeta.
  now destruct (JS.Number_ _).
Qed.

(** C10. The port is 5000 when [APP_PORT] is unset, and also whenever it
    is set to a string that [Number] does not convert to a non-zero
    number. *)
Theorem port_falls_back (env : gmap string string) :
  match env !! "APP_PORT" with
  | None => True
  | Some s => nonzero_number (JS.StringToNumber s) = false
  end ->
  App.port env = JS.Num (JS.of_Z 5000).
Proof.
  intros H. rewrite port_cases. cbv zeta.
  destruct (env !! "APP_PORT") as [s|]; cbn; [now rewrite H | reflexivity].
Qed.

Lemma port_falls_back_witness :
  nonzero_number (JS.StringToNumber "0") = false
  /\ App.port (<["APP_PORT" := "0"]> ∅) = JS.Num (JS.of_Z 5000).
Proof.
  split; [reflexivity|].
  apply (port_falls_back (<["APP_PORT" := "0"]> ∅)). reflexivity.
Defined.

Example port_examples :
  App.port ∅ = JS.Num (JS.of_Z 5000)
  /\ App.port (<["APP_PORT" := ""]> ∅) = JS.Num (JS.of_Z 5000)
  /\ App.port (<["APP_PORT" := "abc"]> ∅) = JS.Num (JS.of_Z 5000)
  /\ App.port (<["APP_PORT" := "0"]> ∅) = JS.Num (JS.of_Z 5000)
  /\ App.port (<["APP_PORT" := "3000"]> ∅) = JS.Num (JS.of_Z 3000).
Proof. repeat split; reflexivity. Qed.

(** Otherwise the port is the converted number. *)
Lemma port_configured env s :
  env !! "APP_PORT" = Some s ->
  nonzero_number (JS.StringToNumber s) = true ->
  App.port env = JS.Num (JS.StringToNumber s).
Proof. intros E H. rewrite port_cases, E. cbn. now rewrite H. Qed.

Section Routes.

Variable env : gmap string string.

(** The upload route over any middleware: what the callback sends. *)
Lemma post_upload_with_run mw req res w error req' w' :
  mw req w = (error, req', w') ->
  App.post_upload_with env mw req res w
  = (App.upload_done env req' res error, w').
Proof.
  intros E. unfold App.post_upload_with, mbind, M_bind. now rewrite E.
Qed.

Lemma upload_done_error req res error :
  JS.truthy error = true ->
  App.upload_done env req res error = express.res_json (error_body error) res.
Proof. intros H. unfold App.upload_done. now rewrite H. Qed.

Lemma upload_done_no_file req res error :
  JS.truthy error = false -> express.file req = None ->
  App.upload_done env req res error
  = express.res_json (error_body (JS.Str "No File Selected")) res.
Proof. intros H F. unfold App.upload_done. now rewrite H, F. Qed.

(** The delete route, in one step. *)
Lemma delete_run req res w :
  let c := S3.DeleteObjectCommand (JS.Str (JS.String_ (env !! "AWS_BUCKET_NAME")))
                                  (JS.assoc "key" (express.body req)) in
  App.delete_delete env req res w =
  match s3_failure w (s3_log w) c with
  | Some e =>
    (express.res_json
       (error_body (JS.Str "Failed to delete file from S3"))
       (express.res_status 500 res),
     mkWorld (bucket w) (s3_log w ++ [c]) (s3_failure w) (random w)
             (random_calls w)
             (console w ++ [[JS.Str "Error deleting file:"; S3.error_value e]]))
  | None =>
    (express.res_json
       (JS.Obj [("message", JS.Str "File deleted successfully")]%string) res,
     mkWorld (S3.apply c (bucket w)) (s3_log w ++ [c]) (s3_failure w)
             (random w) (random_calls w) (console w ++ [[S3.output 204]]))
  end.
Proof.
  cbv zeta. unfold App.delete_delete, mbind, M_bind, s3_send.
  destruct (s3_failure w _ _); reflexivity.
Qed.

(** Every error the upload middleware reports is a truthy value. *)
Lemma upload_error_truthy req w :
  let error := fst (fst (App.upload env req w)) in
  error = JS.Undefined \/ JS.truthy error = true.
Proof.
  cbv zeta. rewrite upload_run.
  destruct (express.part req) as [p|]; [|now left]. cbv zeta.
  destruct (negb _); [now right|].
  destruct (negb _); [now right|].
  destruct (libStorage.done _ _ _ _ _) as [r w1] eqn:E.
  destruct (_ <=? _); [now right|].
  destruct r as [e|out]; [|now left]. right. cbn [fst].
  now apply done_error in E.
Qed.

End Routes.

(** C3. When the upload middleware reports no error and leaves no file on
    the request, the route answers with the JSON body
    [{ error: "No File Selected" }] under status 200. *)
Theorem no_file_selected (env : gmap string string) (req req' : express.Request)
    (w w' : World) (error : JS.Value) :
  App.upload env req w = (error, req', w') ->
  JS.truthy error = false ->
  express.file req' = None ->
  App.post_upload env req express.res0 w
  = ({| express.statusCode := 200;
        express.sent :=
          [json_response 200 (JS.Obj [("error", JS.Str "No File Selected")]%string)] |},
     w').
Proof.
  intros E H F. unfold App.post_upload.
  rewrite (post_upload_with_run env _ _ _ _ _ _ _ E).
  now rewrite upload_done_no_file.
Qed.

Lemma no_file_selected_witness :
  App.post_upload sample_env empty_request express.res0 (quiet_world half)
  = ({| express.statusCode := 200;
        express.sent :=
          [json_response 200 (JS.Obj [("error", JS.Str "No File Selected")]%string)] |},
     quiet_world half).
Proof.
  apply (no_file_selected sample_env empty_request empty_request
           (quiet_world half) (quiet_world half) JS.Undefined);
    reflexivity.
Defined.

(** C5. When the upload middleware reports an error, the route answers
    with a JSON body whose [error] field is that very value. *)
Theorem upload_error_passed_through (env : gmap string string)
    (req req' : express.Request) (w w' : World) (error : JS.Value) :
  App.upload env req w = (error, req', w') ->
  JS.truthy error = true ->
  App.post_upload env req express.res0 w
  = ({| express.statusCode := 200;
        express.sent := [json_response 200 (JS.Obj [("error", error)]%string)] |},
     w').
Proof.
  intros E H. unfold App.post_upload.
  rewrite (post_upload_with_run env _ _ _ _ _ _ _ E).
  now rewrite upload_done_error.
Qed.

Lemma upload_error_passed_through_witness :
  App.post_upload sample_env (upload_request "cat.png" "image/png" 2000000)
                  express.res0 offline_world
  = ({| express.statusCode := 200;
        express.sent :=
          [json_response 200
             (JS.Obj [("error",
                       S3.error_value (S3.mkError "TimeoutError" "connect ETIMEDOUT"))]%string)] |},
     after_put offline_world
       (put_of sample_env offline_world
               (S3.mkPart (Express.Multer.mkFile "image" "cat.png" "image/png") 2000000))
       false).
Proof.
  apply (upload_error_passed_through sample_env
           (upload_request "cat.png" "image/png" 2000000)
           (upload_request "cat.png" "image/png" 2000000)); reflexivity.
Defined.

(** C4. The delete route sends one delete command and answers from its
    outcome alone: status 200 with [{ message: "File deleted
    successfully" }] when the command succeeds, status 500 with the fixed
    body [{ error: "Failed to delete file from S3" }] when it fails,
    whatever the error is. The command is sent once, never again. *)
Theorem delete_answers (env : gmap string string) (req : express.Request)
    (w : World) :
  let c := S3.DeleteObjectCommand (JS.Str (JS.String_ (env !! "AWS_BUCKET_NAME")))
                                  (JS.assoc "key" (express.body req)) in
  let '(res, w') := App.delete_delete env req express.res0 w in
  s3_log w' = s3_log w ++ [c]
  /\ express.sent res =
     match s3_failure w (s3_log w) c with
     | None =>
       [json_response 200
          (JS.Obj [("message", JS.Str "File deleted successfully")]%string)]
     | Some _ =>
       [json_response 500
          (JS.Obj [("error", JS.Str "Failed to delete file from S3")]%string)]
     end.
Proof.
  cbv zeta. rewrite delete_run. cbv zeta.
  destruct (s3_failure w _ _); split; reflexivity.
Qed.

(** C6. The delete route does not inspect the key: whatever the body
    holds under [key], [undefined] when it holds nothing, is the [Key] of
    the one delete command, sent for the configured bucket. *)
Theorem delete_passes_key (env : gmap string string) (req : express.Request)
    (res : express.Res) (w : World) :
  s3_log (snd (App.delete_delete env req res w))
  = s3_log w
    ++ [S3.DeleteObjectCommand (JS.Str (JS.String_ (env !! "AWS_BUCKET_NAME")))
                               (JS.assoc "key" (express.body req))].
Proof.
  pose proof (delete_run env req res w) as E. cbv zeta in E. rewrite E.
  destruct (s3_failure w _ _); reflexivity.
Qed.

Example delete_key_examples :
  s3_log (snd (App.delete_delete sample_env (delete_request []) express.res0
                 (quiet_world half)))
  = [S3.DeleteObjectCommand (JS.Str "gallery") JS.Undefined]
  /\ s3_log (snd (App.delete_delete sample_env
                    (delete_request [("key", JS.Str "")]%string) express.res0
                    (quiet_world half)))
     = [S3.DeleteObjectCommand (JS.Str "gallery") (JS.Str "")]
  /\ s3_log (snd (App.delete_delete sample_env
                    (delete_request [("key", JS.Str "saskengallery/a.jpg")]%string)
                    express.res0 (quiet_world half)))
     = [S3.DeleteObjectCommand (JS.Str "gallery") (JS.Str "saskengallery/a.jpg")].
Proof. repeat split; reflexivity. Qed.




(** Soundness of the filter as written: an accepted file has one of the
    four words somewhere in its lower-cased extension and somewhere in
    its MIME type. *)
Lemma accepts_occurs file :
  accepts file = true <->
  (exists lit pre post,
      In lit App.filetypes
      /\ Express.Multer.mimetype file = pre +:+ lit +:+ post)
  /\ (exists lit pre post,
         In lit App.filetypes
         /\ JS.toLowerCase (path.extname (Express.Multer.originalname file))
            = pre +:+ lit +:+ post).
Proof. unfold accepts. now rewrite andb_true_iff, !test_occurs. Qed.

(** A file that fails either test is turned away before anything is sent
    to the storage service: the world is unchanged. *)
Lemma rejected_before_storage env req res w p :
  express.part req = Some p ->
  Express.Multer.fieldname (S3.header p) = "image"%string ->
  accepts (S3.header p) = false ->
  App.post_upload env req res w
  = (express.res_json (JS.Obj [("error", JS.Str "Error: Images Only!")]%string) res,
     w).
Proof.
  intros Hp Hf Ha. unfold App.post_upload.
  erewrite post_upload_with_run.
  2:{ rewrite upload_run, Hp. cbv zeta. rewrite Hf, Ha. reflexivity. }
  reflexivity.
Qed.

(** C1. The filter accepts [notes.jpgx] declared as [text/x-png-notes]:
    its extension is none of jpg, jpeg, png, gif and its MIME type is no
    image type, yet [checkFileType] calls back with [(null, true)] and the
    upload route stores the file. *)
Theorem filter_accepts_non_image :
  spec_extension_allowed (Express.Multer.originalname disguised_file) = false
  /\ spec_mime_allowed (Express.Multer.mimetype disguised_file) = false
  /\ App.checkFileType disguised_file (fun args => args) = [JS.Null; JS.Bool true]
  /\ let '(res, w) :=
       App.post_upload sample_env (upload_request "notes.jpgx" "text/x-png-notes" 20)
                       express.res0 (quiet_world half) in
     express.sent res
     = [json_response 200 (upload_ok "https://cdn.example/saskengallery/ii.jpgx")]
     /\ s3_log w
        = [S3.PutObjectCommand "gallery" "saskengallery/ii.jpgx" "public-read"
                               (S3.mkPart disguised_file 20)].
Proof. vm_compute. repeat split. Qed.

Lemma append_assoc (s t u : string) : (s +:+ t) +:+ u = s +:+ t +:+ u.
Proof.
  induction s as [|c s IH]; [reflexivity|].
  rewrite !append_cons. now rewrite IH.
Qed.

Lemma toLowerCase_nonempty s : JS.toLowerCase s <> ""%string -> s <> ""%string.
Proof. now intros H ->. Qed.

Lemma token_length w : (String.length (token_at w) <= 26)%nat.
Proof.
  unfold token_at. rewrite length_append.
  pose proof (fragment_length (random w (random_calls w))).
  pose proof (fragment_length (random w (S (random_calls w)))). lia.
Qed.

Lemma token_base36 w : string_forallb is_base36 (token_at w) = true.
Proof. unfold token_at. now rewrite append_forallb, !fragment_base36. Qed.

(** An accepted file has an extension, which starts with a dot. *)
Lemma accepts_extension file :
  accepts file = true ->
  exists e, path.extname (Express.Multer.originalname file) = String "." e.
Proof.
  intros H. apply andb_true_iff in H as [_ H].
  apply extname_dot, toLowerCase_nonempty. now apply test_filetypes_nonempty.
Qed.

(** The upload of [cat.jpg] when [Math.random()] returns 0.5 twice: the
    token is ["ii"], two characters long. *)
Lemma upload_token_can_be_short :
  express.sent
    (fst (App.post_upload sample_env (upload_request "cat.jpg" "image/jpeg" 2000000)
                          express.res0 (quiet_world half)))
  = [json_response 200 (upload_ok "https://cdn.example/saskengallery/ii.jpg")]
  /\ ~ exists token,
         "saskengallery/ii.jpg"%string = "saskengallery/" +:+ token +:+ ".jpg"
         /\ (20 <= String.length token <= 34)%nat.
Proof.
  split; [vm_compute; reflexivity|].
  intros (token & E & Hlen).
  apply (f_equal String.length) in E. rewrite !length_append in E.
  cbn in E. lia.
Qed.

(** The callback answers with the success body only when there is no
    error and a stored file. *)
Lemma upload_done_ok env req error url :
  express.sent (App.upload_done env req express.res0 error)
  = [json_response 200 (upload_ok url)] ->
  JS.truthy error = false
  /\ exists f, express.file req = Some f
               /\ url = JS.String_ (env !! "AWS_BUCKET_PATH")
                        +:+ "/" +:+ express.key f.
Proof.
  unfold App.upload_done, express.res_json, json_response, upload_ok, express.res0.
  cbn [express.sent express.statusCode app].
  destruct (JS.truthy error); [intros H; discriminate H|].
  destruct (express.file req) as [f|]; [|intros H; discriminate H].
  intros H. injection H as <-. eauto.
Qed.

(** C2, amended. A successful upload answers with the URL made of
    [AWS_BUCKET_PATH], a slash and the storage key; the key is
    [saskengallery/], a token and the extension of the original name as
    [path.extname] returns it, dot first and case unchanged; the token is
    made of at most 26 base-36 digits; the part is in the bucket under
    that key. *)
Theorem upload_success_url (env : gmap string string) (req : express.Request)
    (w w' : World) (res' : express.Res) (url : string) :
  express.file req = None ->
  App.post_upload env req express.res0 w = (res', w') ->
  express.sent res' = [json_response 200 (upload_ok url)] ->
  exists p token ext,
    express.part req = Some p
    /\ path.extname (Express.Multer.originalname (S3.header p)) = String "." ext
    /\ (exists pre post,
           Express.Multer.originalname (S3.header p)
           = pre +:+ String "." ext +:+ post)
    /\ url = JS.String_ (env !! "AWS_BUCKET_PATH")
             +:+ "/" +:+ "saskengallery/" +:+ token +:+ String "." ext
    /\ (String.length token <= 26)%nat
    /\ string_forallb is_base36 token = true
    /\ bucket w' !! (JS.String_ (env !! "AWS_BUCKET_NAME"),
                     "saskengallery/" +:+ token +:+ String "." ext)
       = Some (S3.mkObject "public-read" p).
Proof.
  intros Hfresh Hrun Hsent.
  destruct (App.upload env req w) as [[error req'] w1] eqn:Hup.
  unfold App.post_upload in Hrun.
  rewrite (post_upload_with_run env _ _ _ _ _ _ _ Hup) in Hrun.
  injection Hrun as <- <-.
  apply upload_done_ok in Hsent as (_ & f & Hfile & ->).
  rewrite upload_run in Hup.
  destruct (express.part req) as [p|] eqn:Hp.
  2:{ injection Hup as _ <- _. congruence. }
  cbv zeta in Hup.
  destruct (negb (_ =? _)%string) in Hup.
  { injection Hup as _ <- _. congruence. }
  destruct (accepts (S3.header p)) eqn:Ha; cbn [negb] in Hup.
  2:{ injection Hup as _ <- _. congruence. }
  destruct (libStorage.done _ _ _ _ (drawn w)) as [r w2] eqn:Ed.
  destruct (Z.leb_spec 11000000 (S3.size p)) as [|Hs].
  { injection Hup as _ <- _. congruence. }
  destruct r as [e|out].
  { injection Hup as _ <- _. congruence. }
  injection Hup as _ <- <-. cbn in Hfile. injection Hfile as <-.
  rewrite Z.min_l in Ed by lia.
  apply done_stored in Ed.
  destruct (accepts_extension _ Ha) as [ext Hext].
  exists p, (token_at w), ext.
  split; [reflexivity|]. split; [exact Hext|].
  split.
  { rewrite <- Hext. apply extname_infix. }
  cbn [express.key]. unfold key_at in *. rewrite Hext in *.
  split; [reflexivity|].
  split; [apply token_length|]. split; [apply token_base36|].
  rewrite Ed. now destruct p.
Qed.

Lemma upload_success_url_witness :
  exists p token ext,
    express.part (upload_request "cat.JPG" "image/jpeg" 2000000) = Some p
    /\ path.extname (Express.Multer.originalname (S3.header p)) = String "." ext
    /\ (exists pre post,
           Express.Multer.originalname (S3.header p)
           = pre +:+ String "." ext +:+ post)
    /\ "https://cdn.example/saskengallery/ii.JPG"%string
       = JS.String_ (sample_env !! "AWS_BUCKET_PATH")
         +:+ "/" +:+ "saskengallery/" +:+ token +:+ String "." ext
    /\ (String.length token <= 26)%nat
    /\ string_forallb is_base36 token = true
    /\ bucket (snd (App.post_upload sample_env
                      (upload_request "cat.JPG" "image/jpeg" 2000000)
                      express.res0 (quiet_world half)))
       !! (JS.String_ (sample_env !! "AWS_BUCKET_NAME"),
           "saskengallery/" +:+ token +:+ String "." ext)
       = Some (S3.mkObject "public-read" p).
Proof.
  apply (upload_success_url sample_env
           (upload_request "cat.JPG" "image/jpeg" 2000000) (quiet_world half)
           (snd (App.post_upload sample_env
                   (upload_request "cat.JPG" "image/jpeg" 2000000)
                   express.res0 (quiet_world half)))
           (fst (App.post_upload sample_env
                   (upload_request "cat.JPG" "image/jpeg" 2000000)
                   express.res0 (quiet_world half)))
           "https://cdn.example/saskengallery/ii.JPG");
    [reflexivity | vm_compute; reflexivity | vm_compute; reflexivity].
Defined.


Lemma getRandomFileName_run file w :
  App.getRandomFileName file w
  = (token_at w +:+ path.extname (Express.Multer.originalname file), drawn w).
Proof. reflexivity. Qed.




Section ExtnameClean.

Variable p : string.

Lemma scan_clean_post n st : scan_clean p n st -> ext_clean p st.
Proof.
  intros (A & B & C & D). unfold ext_clean.
  destruct (Z.eq_dec (path.startDot st) (-1)) as [Hs|Hs]; [now left|right].
  destruct (D Hs) as [Hr Hd].
  assert (He : path.end_ st <> -1) by (intros He; apply Hs, A, He).
  destruct (B He) as (_ & _ & Hsl).
  split; [lia|]. intros j c Hj Hg. unfold plain_unit.
  apply andb_true_iff. split; apply negb_true_iff, Ascii.eqb_neq.
  - apply (Hsl j); [lia | exact Hg].
  - apply (Hd j); [lia | exact Hg].
Qed.

Lemma scan_ext_clean n st : scan_clean p n st -> ext_clean p (path.scan p n st).
Proof.
  revert st. induction n as [|i IH]; intros st Hinv.
  { now apply scan_clean_post in Hinv. }
  cbn [path.scan].
  destruct (String.get i p) as [code|] eqn:G.
  2:{ now apply scan_clean_post in Hinv. }
  destruct (Ascii.eqb_spec code path.CHAR_FORWARD_SLASH) as [->|Hslash].
  - destruct (path.matchedSlash st) eqn:Hm; cbn [negb].
    + apply IH. destruct Hinv as (A & B & C & D).
      assert (He : path.end_ st = -1).
      { destruct (Z.eq_dec (path.end_ st) (-1)) as [|He]; [easy|].
        destruct (B He) as [Hf _]. congruence. }
      split; [exact A|]. split; [intros Hne; congruence|].
      split; [intros _ j c Hj; lia|].
      intros Hs. specialize (A He). congruence.
    + apply (scan_clean_post (S i)) in Hinv. exact Hinv.
  - cbv zeta.
    match goal with |- ext_clean p (path.scan p i ?s) => set (st2 := s) end.
    assert (Eend : (path.end_ st = -1 /\ path.end_ st2 = Z.of_nat i + 1
                    /\ path.matchedSlash st2 = false)
                   \/ (path.end_ st <> -1 /\ path.end_ st2 = path.end_ st
                       /\ path.matchedSlash st2 = path.matchedSlash st)).
    { subst st2.
      destruct (Z.eqb_spec (path.end_ st) (-1)); [left|right];
        (split; [assumption|]);
        destruct (Ascii.eqb code path.CHAR_DOT);
        cbn [negb path.startDot path.end_ path.matchedSlash path.preDotState path.startPart];
        destruct (Z.eqb (path.startDot st) (-1));
        cbn [negb path.startDot path.end_ path.matchedSlash path.preDotState path.startPart];
        try destruct (Z.eqb (path.preDotState st) 1);
        split; reflexivity. }
    assert (Edot : (code = path.CHAR_DOT /\ path.startDot st = -1
                    /\ path.startDot st2 = Z.of_nat i)
                   \/ ((code <> path.CHAR_DOT \/ path.startDot st <> -1)
                       /\ path.startDot st2 = path.startDot st)).
    { subst st2.
      destruct (Ascii.eqb_spec code path.CHAR_DOT) as [Hc|Hc];
        destruct (Z.eqb_spec (path.end_ st) (-1));
        cbn [negb path.startDot path.end_ path.matchedSlash path.preDotState path.startPart];
        destruct (Z.eqb_spec (path.startDot st) (-1));
        cbn [negb path.startDot path.end_ path.matchedSlash path.preDotState path.startPart];
        try destruct (Z.eqb (path.preDotState st) 1);
        cbn [negb path.startDot path.end_ path.matchedSlash path.preDotState path.startPart];
        first [left; repeat split; (assumption || reflexivity)
              | right; split; [tauto | reflexivity]]. }
    clearbody st2. apply IH. destruct Hinv as (A & B & C & D).
    assert (Hget : forall (j : nat) c, Z.of_nat j = Z.of_nat i ->
                                       String.get j p = Some c -> c = code).
    { intros j c Hj Hg. apply Nat2Z.inj in Hj. subst j. congruence. }
    destruct Eend as [(He & He2 & Hm2)|(He & He2 & Hm2)].
    + (* the end of the component is found here *)
      specialize (A He).
      split; [intros; lia|].
      split.
      { intros _. split; [exact Hm2|]. split; [lia|].
        intros j c Hj Hg. rewrite (Hget j c); [exact Hslash | lia | exact Hg]. }
      destruct Edot as [(Hc & _ & Hs2)|(Hc & Hs2)].
      * split; [intros; lia|].
        intros _. split; [lia|]. intros j c Hj; lia.
      * destruct Hc as [Hc|Hc]; [|congruence].
        split.
        { intros _ j c Hj Hg. rewrite (Hget j c); [exact Hc | lia | exact Hg]. }
        intros Hne. congruence.
    + destruct (B He) as (Hm & Hlt & Hsl).
      split; [intros; congruence|].
      split.
      { intros _. split; [congruence|]. split; [lia|].
        intros j c Hj Hg.
        destruct (Z.eq_dec (Z.of_nat j) (Z.of_nat i)) as [Hji|Hji].
        - now rewrite (Hget j c Hji Hg).
        - apply (Hsl j); [lia | exact Hg]. }
      destruct Edot as [(Hc & Hs & Hs2)|(Hc & Hs2)].
      * split; [intros; lia|].
        intros _. split; [lia|]. intros j c Hj Hg.
        apply (C Hs j); [lia | exact Hg].
      * split.
        { intros Hs. rewrite Hs2 in Hs.
          destruct Hc as [Hc|Hc]; [|congruence].
          intros j c Hj Hg.
          destruct (Z.eq_dec (Z.of_nat j) (Z.of_nat i)) as [Hji|Hji].
          - now rewrite (Hget j c Hji Hg).
          - apply (C Hs j); [lia | exact Hg]. }
        intros Hs. rewrite Hs2 in Hs |- *. rewrite He2.
        destruct (D Hs) as [Hr Hdd]. split; [lia|]. exact Hdd.
Qed.

Lemma scan0_clean : scan_clean p (String.length p) path.scan0.
Proof.
  unfold scan_clean, path.scan0; cbn.
  split; [reflexivity|]. split; [intros H; congruence|].
  split; [intros _ j c Hj; lia | intros H; congruence].
Qed.

End ExtnameClean.

Section ExtnameShape.

Lemma substring_cons n m s c :
  String.get n s = Some c ->
  String.substring n (S m) s = String c (String.substring (S n) m s).
Proof.
  revert s. induction n as [|n IH]; intros [|d s] H; cbn in H; try discriminate.
  - injection H as ->. cbn. destruct s, m; reflexivity.
  - change (String.substring (S n) (S m) (String d s))
      with (String.substring n (S m) s).
    rewrite (IH s H). reflexivity.
Qed.

Lemma substring_forallb_idx P n m s :
  (forall (j : nat) c, (n <= j < n + m)%nat -> String.get j s = Some c ->
                       P c = true) ->
  string_forallb P (String.substring n m s) = true.
Proof.
  revert n m. induction s as [|d s IH]; intros [|n] [|m] H; cbn; trivial.
  - rewrite (H 0%nat d); [|lia|reflexivity]. cbn.
    apply (IH 0%nat m). intros j c Hj Hg. apply (H (S j)); [lia | exact Hg].
  - apply (IH n 0%nat). intros j c Hj; lia.
  - apply (IH n (S m)). intros j c Hj Hg. apply (H (S j)); [lia | exact Hg].
Qed.

(** The extension is empty, or a dot followed by units that are neither
    dots nor separators. *)
Lemma extname_shape p :
  path.extname p = ""%string
  \/ exists e, path.extname p = String "." e
               /\ string_forallb plain_unit e = true.
Proof.
  unfold path.extname.
  pose proof (scan_dot_ok p (String.length p) path.scan0) as Hdot.
  pose proof (scan_ext_clean p (String.length p) path.scan0 (scan0_clean p))
    as Hclean.
  destruct (path.no_extension _) eqn:Hno; [now left | right].
  unfold path.no_extension in Hno.
  repeat (apply orb_false_iff in Hno as [Hno ?]).
  apply Z.eqb_neq in Hno.
  destruct Hdot as [Hdot|[Hr Hg]]; [split; now left | congruence |].
  destruct Hclean as [Hc|[_ Hc]]; [congruence|].
  set (st := path.scan p (String.length p) path.scan0) in *.
  unfold JS.slice.
  replace (Z.to_nat (path.end_ st) - Z.to_nat (path.startDot st))%nat
    with (S (Z.to_nat (path.end_ st) - Z.to_nat (path.startDot st) - 1))
    by lia.
  rewrite (substring_cons _ _ _ _ Hg).
  eexists. split; [reflexivity|].
  apply substring_forallb_idx. intros j c Hj Hgj.
  apply (Hc j); [lia | exact Hgj].
Qed.

End ExtnameShape.

Section Names.

Lemma string_forallb_impl (P Q : ascii -> bool) s :
  (forall c, P c = true -> Q c = true) ->
  string_forallb P s = true -> string_forallb Q s = true.
Proof.
  intros HPQ. induction s as [|c s IH]; cbn; [trivial|].
  intros H. apply andb_true_iff in H as [Hc Hs].
  now rewrite (HPQ c Hc), IH.
Qed.

Lemma base36_plain c : is_base36 c = true -> plain_unit c = true.
Proof.
  destruct c as [[] [] [] [] [] [] [] []]; vm_compute; congruence.
Qed.

Lemma plain_not_slash c : plain_unit c = true -> not_slash c = true.
Proof. unfold plain_unit, not_slash. now intros [H _]%andb_true_iff. Qed.

Lemma count_unit_append c s t :
  count_unit c (s +:+ t) = (count_unit c s + count_unit c t)%nat.
Proof.
  induction s as [|d s IH]; [reflexivity|].
  rewrite append_cons. cbn. rewrite IH. lia.
Qed.

Lemma count_dot_plain s :
  string_forallb plain_unit s = true -> count_unit "." s = 0%nat.
Proof.
  induction s as [|d s IH]; cbn; [trivial|].
  intros H. apply andb_true_iff in H as [Hd Hs]. rewrite (IH Hs).
  unfold plain_unit in Hd. apply andb_true_iff in Hd as [_ Hd].
  apply negb_true_iff in Hd. unfold path.CHAR_DOT in Hd. now rewrite Hd.
Qed.

End Names.

(** X1. The random file name never contains a path separator and contains
    at most one dot, whatever the original name of the file. *)
Theorem random_name_is_flat (file : Express.Multer.File) (w : World) :
  let name := fst (App.getRandomFileName file w) in
  string_forallb not_slash name = true
  /\ (count_unit "." name <= 1)%nat.
Proof.
  cbv zeta. rewrite getRandomFileName_run. cbn [fst].
  pose proof (token_base36 w) as Ht.
  apply (string_forallb_impl _ _ _ base36_plain) in Ht.
  destruct (extname_shape (Express.Multer.originalname file)) as [->|(e & -> & He)].
  - split.
    + rewrite append_forallb. cbn. rewrite andb_true_r.
      now apply (string_forallb_impl _ _ _ plain_not_slash).
    + rewrite count_unit_append, (count_dot_plain _ Ht). cbn. lia.
  - split.
    + rewrite append_forallb. cbn.
      rewrite (string_forallb_impl _ _ _ plain_not_slash Ht).
      now rewrite (string_forallb_impl _ _ _ plain_not_slash He).
    + rewrite count_unit_append, (count_dot_plain _ Ht). cbn.
      rewrite (count_dot_plain _ He). lia.
Qed.

Section NoDot.

Lemma forallb_get P s (j : nat) c :
  string_forallb P s = true -> String.get j s = Some c -> P c = true.
Proof.
  revert j. induction s as [|d s IH]; intros [|j] H G; cbn in *; try discriminate.
  - injection G as <-. now apply andb_true_iff in H as [H _].
  - apply andb_true_iff in H as [_ H]. now apply (IH j).
Qed.

Lemma scan_no_dot p n st :
  string_forallb not_dot p = true ->
  path.startDot st = -1 ->
  path.startDot (path.scan p n st) = -1.
Proof.
  intros Hp. revert st. induction n as [|i IH]; intros st Hs; [exact Hs|].
  cbn [path.scan].
  destruct (String.get i p) as [code|] eqn:G; [|exact Hs].
  destruct (Ascii.eqb code path.CHAR_FORWARD_SLASH).
  - destruct (negb _); [exact Hs | now apply IH].
  - pose proof (forallb_get _ _ _ _ Hp G) as Hc.
    unfold not_dot in Hc. apply negb_true_iff in Hc. rewrite Hc.
    apply IH.
    destruct (path.end_ st =? -1);
      cbn [negb path.startDot path.end_ path.matchedSlash path.preDotState
           path.startPart];
      rewrite Hs; cbn; try rewrite Hs; reflexivity.
Qed.

Lemma extname_no_dot p :
  string_forallb not_dot p = true -> path.extname p = ""%string.
Proof.
  intros Hp. unfold path.extname, path.no_extension.
  rewrite (scan_no_dot p (String.length p) path.scan0 Hp eq_refl).
  reflexivity.
Qed.

End NoDot.

(** X2. A file whose original name contains no dot is turned away, whatever
    its MIME type. *)
Theorem dotless_name_rejected (file : Express.Multer.File) :
  string_forallb not_dot (Express.Multer.originalname file) = true ->
  forall (R : Type) (cb : list JS.Value -> R),
    App.checkFileType file cb = cb [JS.Str "Error: Images Only!"].
Proof.
  intros H R cb. unfold App.checkFileType.
  rewrite (extname_no_dot _ H). cbn. now rewrite andb_false_r.
Qed.

Lemma dotless_name_rejected_witness :
  App.checkFileType (Express.Multer.mkFile "image" "holiday-png" "image/png")
                    (fun args => args)
  = [JS.Str "Error: Images Only!"].
Proof.
  refine (dotless_name_rejected
            (Express.Multer.mkFile "image" "holiday-png" "image/png") _
            (list JS.Value) (fun args => args)).
  vm_compute. reflexivity.
Defined.

(** X3. The MIME type is compared as written: a file whose declared MIME
    type has no lower-case letter is turned away, whatever its name. *)
Theorem upper_case_mime_rejected (file : Express.Multer.File) :
  string_forallb no_lower_letter (Express.Multer.mimetype file) = true ->
  forall (R : Type) (cb : list JS.Value -> R),
    App.checkFileType file cb = cb [JS.Str "Error: Images Only!"].
Proof.
  intros H R cb. unfold App.checkFileType.
  destruct (JS.test App.filetypes (Express.Multer.mimetype file)) eqn:Ht;
    [|reflexivity].
  apply test_occurs in Ht as (lit & pre & post & Hin & E).
  rewrite E, !append_forallb in H.
  apply andb_true_iff in H as [_ H]. apply andb_true_iff in H as [H _].
  cbn in Hin. destruct Hin as [<-|[<-|[<-|[<-|[]]]]]; discriminate H.
Qed.

Lemma upper_case_mime_rejected_witness :
  App.checkFileType (Express.Multer.mkFile "image" "cat.png" "IMAGE/PNG")
                    (fun args => args)
  = [JS.Str "Error: Images Only!"].
Proof.
  refine (upper_case_mime_rejected
            (Express.Multer.mkFile "image" "cat.png" "IMAGE/PNG") _
            (list JS.Value) (fun args => args)).
  vm_compute. reflexivity.
Defined.

(** X4. A file whose extension is one of .jpg, .jpeg, .png, .gif in any
    letter case and whose MIME type is one of image/jpg, image/jpeg,
    image/png, image/gif passes the filter. *)
Theorem plain_image_accepted (file : Express.Multer.File) :
  spec_extension_allowed (Express.Multer.originalname file) = true ->
  spec_mime_allowed (Express.Multer.mimetype file) = true ->
  forall (R : Type) (cb : list JS.Value -> R),
    App.checkFileType file cb = cb [JS.Null; JS.Bool true].
Proof.
  intros He Hm R cb. unfold App.checkFileType.
  unfold spec_extension_allowed in He. unfold spec_mime_allowed in Hm.
  apply existsb_exists in He as (e & Hein & He).
  apply existsb_exists in Hm as (m & Hmin & Hm).
  apply String.eqb_eq in He, Hm. rewrite He, Hm.
  cbn in Hein, Hmin.
  destruct Hein as [<-|[<-|[<-|[<-|[]]]]];
    destruct Hmin as [<-|[<-|[<-|[<-|[]]]]]; reflexivity.
Qed.

Lemma plain_image_accepted_witness :
  App.checkFileType (Express.Multer.mkFile "image" "Holiday.JPeG" "image/jpeg")
                    (fun args => args)
  = [JS.Null; JS.Bool true].
Proof.
  refine (plain_image_accepted
            (Express.Multer.mkFile "image" "Holiday.JPeG" "image/jpeg") _ _
            (list JS.Value) (fun args => args));
    vm_compute; reflexivity.
Defined.

(** X5. Upload, then delete by the key of the stored file: when the
    service accepts the delete command, the object the upload stored is
    gone from the bucket and the delete route answers 200. *)
Theorem upload_then_delete (env : gmap string string)
    (req req' : express.Request) (w w1 : World) (f : express.StoredFile) :
  express.file req = None ->
  App.upload env req w = (JS.Undefined, req', w1) ->
  express.file req' = Some f ->
  s3_failure w1 (s3_log w1)
    (S3.DeleteObjectCommand (JS.Str (JS.String_ (env !! "AWS_BUCKET_NAME")))
                            (JS.Str (express.key f))) = None ->
  let '(res, w2) :=
    App.delete_delete env (delete_request [("key", JS.Str (express.key f))]%string)
                      express.res0 w1 in
  is_Some (bucket w1 !! (JS.String_ (env !! "AWS_BUCKET_NAME"), express.key f))
  /\ bucket w2 !! (JS.String_ (env !! "AWS_BUCKET_NAME"), express.key f) = None
  /\ express.sent res = [json_response 200 deleted_ok].
Proof.
  intros Hfresh Hup Hfile Hok.
  pose proof (delete_run env (delete_request [("key", JS.Str (express.key f))]%string)
                         express.res0 w1) as E.
  cbv zeta in E. cbn [delete_request express.body JS.assoc] in E.
  rewrite String.eqb_refl in E. rewrite Hok in E. rewrite E. clear E.
  split; [|split; [|reflexivity]].
  - rewrite upload_run in Hup.
    destruct (express.part req) as [p|].
    2:{ injection Hup as <- _. congruence. }
    cbv zeta in Hup.
    destruct (negb (_ =? _)%string) in Hup; [discriminate Hup|].
    destruct (negb (accepts _)) in Hup; [discriminate Hup|].
    destruct (libStorage.done _ _ _ _ (drawn w)) as [r w2] eqn:Ed.
    destruct (_ <=? _) in Hup; [discriminate Hup|].
    destruct r as [e|out].
    { injection Hup as _ <- _. congruence. }
    injection Hup as <- <-. cbn in Hfile. injection Hfile as <-.
    cbn [express.key]. apply done_stored in Ed. rewrite Ed. eauto.
  - cbn [bucket S3.apply]. apply lookup_delete_eq.
Qed.

Lemma upload_then_delete_witness :
  let '(res, w2) :=
    App.delete_delete sample_env
      (delete_request [("key", JS.Str "saskengallery/ii.jpg")]%string)
      express.res0
      (snd (App.upload sample_env (upload_request "cat.jpg" "image/jpeg" 2000000)
                       (quiet_world half))) in
  is_Some (bucket (snd (App.upload sample_env
                          (upload_request "cat.jpg" "image/jpeg" 2000000)
                          (quiet_world half)))
           !! (JS.String_ (sample_env !! "AWS_BUCKET_NAME"),
               "saskengallery/ii.jpg"%string))
  /\ bucket w2 !! (JS.String_ (sample_env !! "AWS_BUCKET_NAME"),
                   "saskengallery/ii.jpg"%string) = None
  /\ express.sent res = [json_response 200 deleted_ok].
Proof.
  apply (upload_then_delete sample_env
           (upload_request "cat.jpg" "image/jpeg" 2000000)
           (multer.with_file (upload_request "cat.jpg" "image/jpeg" 2000000)
              (express.mkStoredFile (Express.Multer.mkFile "image" "cat.jpg" "image/jpeg")
                 "gallery" "saskengallery/ii.jpg" "public-read"))
           (quiet_world half)
           (snd (App.upload sample_env
                   (upload_request "cat.jpg" "image/jpeg" 2000000)
                   (quiet_world half)))
           (express.mkStoredFile (Express.Multer.mkFile "image" "cat.jpg" "image/jpeg")
              "gallery" "saskengallery/ii.jpg" "public-read"));
    vm_compute; reflexivity.
Defined.

(** X6. Each route answers exactly once. The upload route answers under
    the status the response object has on entry, 200, whether it reports
    an error or a success; the delete route answers under 200 or 500. *)
Theorem routes_answer_once (env : gmap string string) (req : express.Request)
    (w : World) :
  (exists body,
      express.sent (fst (App.post_upload env req express.res0 w))
      = [json_response 200 body])
  /\ (exists code body,
         express.sent (fst (App.delete_delete env req express.res0 w))
         = [json_response code body] /\ (code = 200 \/ code = 500))
  /\ express.sent (fst (App.get_root req express.res0 w))
     = [express.mkResponse 200 (express.Text "Express + TypeScript Server")].
Proof.
  split; [|split; [|reflexivity]].
  - destruct (App.upload env req w) as [[error req'] w'] eqn:E.
    unfold App.post_upload. rewrite (post_upload_with_run env _ _ _ _ _ _ _ E).
    cbn [fst]. unfold App.upload_done.
    destruct (JS.truthy error); [eexists; reflexivity|].
    destruct (express.file req'); eexists; reflexivity.
  - pose proof (delete_run env req express.res0 w) as E. cbv zeta in E.
    rewrite E. destruct (s3_failure _ _ _); cbn [fst].
    + exists 500. eexists. split; [reflexivity | now right].
    + exists 200. eexists. split; [reflexivity | now left].
Qed.


(** X8. The port is a number that is neither zero nor NaN, whatever the
    environment holds. *)
Theorem port_never_zero (env : gmap string string) :
  exists x, App.port env = JS.Num x /\ nonzero_number x = true.
Proof.
  rewrite port_cases. cbv zeta.
  destruct (nonzero_number _) eqn:H; eexists; split; try reflexivity.
  exact H.
Qed.

Section DecimalPort.

Lemma digits_value_digits s acc n :
  JS.digits_value 10 s acc = Some n ->
  string_forallb is_decimal_digit s = true.
Proof.
  revert acc. induction s as [|c s IH]; intros acc H; [reflexivity|].
  cbn [JS.digits_value] in H. cbn [string_forallb]. unfold is_decimal_digit.
  destruct (JS.digit_of 10 c); [|discriminate H]. cbn. now apply IH in H.
Qed.

Lemma digit_not_space c :
  is_decimal_digit c = true -> JS.is_white_space c = false.
Proof. destruct c as [[] [] [] [] [] [] [] []]; vm_compute; congruence. Qed.

Lemma trim_end_digits s :
  string_forallb is_decimal_digit s = true -> JS.trim_end s = s.
Proof.
  induction s as [|c s IH]; [reflexivity|]. cbn [string_forallb JS.trim_end].
  intros [Hc Hs]%andb_true_iff. rewrite (digit_not_space c Hc), (IH Hs).
  reflexivity.
Qed.

Lemma trim_start_digits s :
  string_forallb is_decimal_digit s = true -> JS.trim_start s = s.
Proof.
  destruct s as [|c s]; [reflexivity|]. cbn [string_forallb JS.trim_start].
  intros [Hc _]%andb_true_iff. now rewrite (digit_not_space c Hc).
Qed.

Lemma span_digits_digits s :
  string_forallb is_decimal_digit s = true -> JS.span_digits s = (s, ""%string).
Proof.
  induction s as [|c s IH]; [reflexivity|]. cbn [string_forallb JS.span_digits].
  intros [Hc Hs]%andb_true_iff. unfold is_decimal_digit in Hc.
  destruct (JS.digit_of 10 c); [|discriminate Hc]. now rewrite (IH Hs).
Qed.

Lemma append_nil_r s : s +:+ "" = s.
Proof.
  induction s as [|c s IH]; [reflexivity|]. now rewrite append_cons, IH.
Qed.

Lemma unsigned_decimal_digits s n :
  s <> ""%string ->
  JS.digits_value 10 s 0 = Some n ->
  JS.unsigned_decimal s = Some (n, 0).
Proof.
  intros Hne H. unfold JS.unsigned_decimal.
  rewrite (span_digits_digits s (digits_value_digits _ _ _ H)).
  destruct s as [|c s]; [congruence|].
  cbn [String.eqb andb]. 
  replace (String.eqb (String c s) "") with false by reflexivity.
  cbn [andb]. rewrite append_nil_r, H. reflexivity.
Qed.

Lemma signed_decimal_digits s n :
  s <> ""%string ->
  JS.digits_value 10 s 0 = Some n ->
  JS.signed_decimal s = JS.round_decimal false n 0.
Proof.
  intros Hne H. pose proof (unsigned_decimal_digits s n Hne H) as Hu.
  pose proof (digits_value_digits _ _ _ H) as Hd.
  destruct s as [|c s]; [congruence|].
  cbn [string_forallb] in Hd. apply andb_true_iff in Hd as [Hc _].
  unfold JS.signed_decimal.
  destruct c as [[] [] [] [] [] [] [] []]; try discriminate Hc;
    cbn; cbn in Hu; rewrite Hu; reflexivity.
Qed.

Lemma StringToNumber_digits s n :
  s <> ""%string ->
  JS.digits_value 10 s 0 = Some n ->
  JS.StringToNumber s = JS.round_decimal false n 0.
Proof.
  intros Hne H. rewrite <- (signed_decimal_digits s n Hne H).
  pose proof (digits_value_digits _ _ _ H) as Hd.
  unfold JS.StringToNumber.
  rewrite (trim_start_digits s Hd), (trim_end_digits s Hd).
  destruct s as [|c s]; [congruence|].
  cbn [string_forallb] in Hd. apply andb_true_iff in Hd as [Hc Hs].
  destruct c as [[] [] [] [] [] [] [] []]; try discriminate Hc;
    try reflexivity.
  destruct s as [|c2 s]; [reflexivity|].
  cbn [string_forallb] in Hs. apply andb_true_iff in Hs as [Hc2 _].
  destruct c2 as [[] [] [] [] [] [] [] []]; try discriminate Hc2;
    reflexivity.
Qed.

Lemma round_decimal_integer n :
  n <> 0 -> JS.round_decimal false n 0 = JS.of_Z n.
Proof.
  intros Hn. unfold JS.round_decimal, JS.of_Z.
  apply Z.eqb_neq in Hn. rewrite Hn. cbn [Z.leb Z.compare].
  now rewrite Z.pow_0_r, Z.mul_1_r, Z.mul_1_l.
Qed.

Lemma all_from_spec (P : Z -> bool) k a n :
  all_from P a k = true -> a <= n < a + Z.of_nat k -> P n = true.
Proof.
  revert a. induction k as [|k IH]; intros a H Hn; [lia|].
  cbn [all_from] in H. apply andb_true_iff in H as [Ha H].
  destruct (Z.eq_dec n a) as [->|Hne]; [exact Ha|].
  apply (IH (a + 1)); [exact H | lia].
Qed.

(** Every port number from 1 to 65535 is a non-zero double. *)
Lemma port_range_nonzero n :
  1 <= n <= 65535 -> nonzero_number (JS.of_Z n) = true.
Proof.
  intros Hn.
  apply (all_from_spec (fun z => nonzero_number (JS.of_Z z))
                       (Z.to_nat 65535) 1).
  - vm_compute. reflexivity.
  - rewrite Z2Nat.id; lia.
Qed.

End DecimalPort.

(** X9. When [APP_PORT] is a non-empty string of decimal digits whose
    value is a port number from 1 to 65535, the server listens on that
    port. *)
Theorem decimal_port_used (env : gmap string string) (s : string) (n : Z) :
  env !! "APP_PORT" = Some s ->
  s <> ""%string ->
  JS.digits_value 10 s 0 = Some n ->
  1 <= n <= 65535 ->
  App.port env = JS.Num (JS.of_Z n).
Proof.
  intros E Hne Hv Hn.
  assert (Hnum : JS.StringToNumber s = JS.of_Z n).
  { rewrite (StringToNumber_digits s n Hne Hv).
    apply round_decimal_integer. lia. }
  rewrite (port_configured env s E); rewrite Hnum;
    [reflexivity | now apply port_range_nonzero].
Qed.

Lemma decimal_port_used_witness :
  App.port (<["APP_PORT" := "08080"]> ∅) = JS.Num (JS.of_Z 8080).
Proof.
  apply (decimal_port_used (<["APP_PORT" := "08080"]> ∅) "08080" 8080);
    [vm_compute; reflexivity | discriminate | vm_compute; reflexivity | lia].
Defined.

Section LetterCase.

Lemma lower_unit_slash c :
  Ascii.eqb (JS.lower_unit c) path.CHAR_FORWARD_SLASH
  = Ascii.eqb c path.CHAR_FORWARD_SLASH.
Proof. destruct c as [[] [] [] [] [] [] [] []]; vm_compute; reflexivity. Qed.

Lemma lower_unit_dot c :
  Ascii.eqb (JS.lower_unit c) path.CHAR_DOT = Ascii.eqb c path.CHAR_DOT.
Proof. destruct c as [[] [] [] [] [] [] [] []]; vm_compute; reflexivity. Qed.

Lemma lower_unit_idem c : JS.lower_unit (JS.lower_unit c) = JS.lower_unit c.
Proof. destruct c as [[] [] [] [] [] [] [] []]; vm_compute; reflexivity. Qed.

Lemma toLowerCase_idem s : JS.toLowerCase (JS.toLowerCase s) = JS.toLowerCase s.
Proof.
  induction s as [|c s IH]; [reflexivity|]. cbn. now rewrite lower_unit_idem, IH.
Qed.

Lemma toLowerCase_length s :
  String.length (JS.toLowerCase s) = String.length s.
Proof. induction s as [|c s IH]; [reflexivity|]. cbn. now rewrite IH. Qed.

Lemma toLowerCase_get (i : nat) s :
  String.get i (JS.toLowerCase s) = option_map JS.lower_unit (String.get i s).
Proof.
  revert i. induction s as [|c s IH]; intros [|i]; cbn; trivial.
Qed.

Lemma toLowerCase_substring n m s :
  String.substring n m (JS.toLowerCase s)
  = JS.toLowerCase (String.substring n m s).
Proof.
  revert n m. induction s as [|c s IH]; intros [|n] [|m]; cbn; trivial.
  now rewrite IH.
Qed.

(** The scan looks at separators and dots only, which lower-casing
    leaves alone. *)
Lemma scan_toLowerCase p n st :
  path.scan (JS.toLowerCase p) n st = path.scan p n st.
Proof.
  revert st. induction n as [|i IH]; intros st; [reflexivity|].
  cbn [path.scan]. rewrite toLowerCase_get.
  destruct (String.get i p) as [code|]; cbn [option_map]; [|reflexivity].
  rewrite lower_unit_slash, lower_unit_dot.
  destruct (Ascii.eqb code path.CHAR_FORWARD_SLASH).
  - destruct (negb _); [reflexivity | apply IH].
  - apply IH.
Qed.

Lemma extname_toLowerCase p :
  path.extname (JS.toLowerCase p) = JS.toLowerCase (path.extname p).
Proof.
  unfold path.extname.
  rewrite toLowerCase_length, scan_toLowerCase.
  destruct (path.no_extension _); [reflexivity|].
  unfold JS.slice. apply toLowerCase_substring.
Qed.

End LetterCase.

(** X10. The filter ignores the letter case of the original name: two
    files with the same MIME type whose names differ in letter case only
    get the same verdict. *)
Theorem name_case_ignored (f1 f2 : Express.Multer.File) :
  Express.Multer.mimetype f1 = Express.Multer.mimetype f2 ->
  JS.toLowerCase (Express.Multer.originalname f1)
  = JS.toLowerCase (Express.Multer.originalname f2) ->
  forall (R : Type) (cb : list JS.Value -> R),
    App.checkFileType f1 cb = App.checkFileType f2 cb.
Proof.
  intros Hm Hn R cb. unfold App.checkFileType.
  rewrite Hm, <- !extname_toLowerCase, Hn. reflexivity.
Qed.

Lemma name_case_ignored_witness :
  App.checkFileType (Express.Multer.mkFile "image" "Holiday.PNG" "image/png")
                    (fun args => args)
  = App.checkFileType (Express.Multer.mkFile "image" "holiday.png" "image/png")
                      (fun args => args).
Proof.
  refine (name_case_ignored
            (Express.Multer.mkFile "image" "Holiday.PNG" "image/png")
            (Express.Multer.mkFile "image" "holiday.png" "image/png") _ _
            (list JS.Value) (fun args => args));
    reflexivity.
Defined.

(** X11. What the filter checks: it calls back with [(null, true)] exactly
    when one of the words jpeg, jpg, png, gif occurs somewhere in the MIME
    type and one occurs somewhere in the lower-cased extension. *)
Theorem filter_accepts_iff_occurs (file : Express.Multer.File) :
  App.checkFileType file (fun args => args) = [JS.Null; JS.Bool true]
  <-> (exists lit pre post,
          In lit ["jpeg"; "jpg"; "png"; "gif"]%string
          /\ Express.Multer.mimetype file = pre +:+ lit +:+ post)
      /\ (exists lit pre post,
             In lit ["jpeg"; "jpg"; "png"; "gif"]%string
             /\ JS.toLowerCase (path.extname (Express.Multer.originalname file))
                = pre +:+ lit +:+ post).
Proof.
  rewrite checkFileType_accepts.
  change ["jpeg"; "jpg"; "png"; "gif"]%string with App.filetypes.
  rewrite <- accepts_occurs.
  destruct (accepts file); split; congruence.
Qed.

(** X12. A part of the field [image] that fails the filter is answered
    with [{ error: 'Error: Images Only!' }] and nothing else happens: no
    command is sent, no random number drawn, no bucket touched. *)
Theorem rejected_file_changes_nothing (env : gmap string string)
    (req : express.Request) (res : express.Res) (w : World) (p : S3.Part) :
  express.part req = Some p ->
  Express.Multer.fieldname (S3.header p) = "image"%string ->
  App.checkFileType (S3.header p) (fun args => args)
  = [JS.Str "Error: Images Only!"] ->
  App.post_upload env req res w
  = (express.res_json (JS.Obj [("error", JS.Str "Error: Images Only!")]%string) res,
     w).
Proof.
  intros Hp Hf Hc. apply (rejected_before_storage env req res w p Hp Hf).
  rewrite checkFileType_accepts in Hc.
  destruct (accepts (S3.header p)); [discriminate Hc | reflexivity].
Qed.

Lemma rejected_file_changes_nothing_witness :
  App.post_upload sample_env (upload_request "cat.txt" "image/png" 100)
                  express.res0 (quiet_world half)
  = (express.res_json (JS.Obj [("error", JS.Str "Error: Images Only!")]%string)
                      express.res0,
     quiet_world half).
Proof.
  apply (rejected_file_changes_nothing sample_env
           (upload_request "cat.txt" "image/png" 100) express.res0
           (quiet_world half)
           (S3.mkPart (Express.Multer.mkFile "image" "cat.txt" "image/png") 100));
    vm_compute; reflexivity.
Defined.
